(** * The autonomous content agent: one cycle, its adapters, its publisher

    A shallow embedding of [autonomous-agent/content_agent.py] and of the
    thresholds of [autonomous-agent/config.py].

    Python's exceptions are values of a [result] type; the local lists the
    adapters append to and the remote stores the agent talks to are threaded
    through a state-and-exception monad, so that what a [try] block did before
    it failed is still there in the handler, as in Python.  Everything outside
    the program (the HTTP session, the feed and HTML parsers, [json.loads],
    the chat completion endpoint, the clock, faults of the GitHub API) is a
    field of an [Env] record the program is run against. *)

From Stdlib Require Import ZArith QArith Ascii String List Lia.
From stdpp Require Import gmap strings list.

Local Open Scope Z_scope.
Set Warnings "-register-all".

(* ===================================================================== *)
(** ** Python values *)

(** An instance of (a subclass of) [Exception]: class name and detail. *)
Inductive exn : Type :=
| Exception (cls : string) (detail : string).

Inductive result (A : Type) : Type :=
| Ok (a : A)
| Raise (e : exn).
Arguments Ok {A} a.
Arguments Raise {A} e.

Definition is_raise {A} (r : result A) : bool :=
  match r with Ok _ => false | Raise _ => true end.

(** What [json.loads] returns: [None], [bool], [int], [float], [str],
    [list], [dict] (a dict keeps its keys in insertion order). *)
Inductive json : Type :=
| JNull
| JBool (b : bool)
| JInt (n : Z)
| JFloat (q : Q)
| JStr (s : string)
| JArr (l : list json)
| JObj (kv : list (string * json)).

(** [s[len(p):]] when [s.startswith(p)]. *)
Fixpoint strip_prefix (p s : string) : option string :=
  match p, s with
  | EmptyString, _ => Some s
  | String a p', String b s' =>
      if Ascii.eqb a b then strip_prefix p' s' else None
  | String _ _, EmptyString => None
  end.

(** [sub in s] on [str]. *)
Fixpoint str_in (sub s : string) : bool :=
  match strip_prefix sub s with
  | Some _ => true
  | None => match s with
            | EmptyString => false
            | String _ s' => str_in sub s'
            end
  end.

Fixpoint assoc (k : string) (kv : list (string * json)) : option json :=
  match kv with
  | [] => None
  | (k', v) :: kv' => if String.eqb k k' then Some v else assoc k kv'
  end.

Definition is_jstr (k : string) (j : json) : bool :=
  match j with JStr s => String.eqb k s | _ => false end.

(** [bool(j)]: the test of [if not new_content]. *)
Definition py_truthy (j : json) : bool :=
  match j with
  | JNull => false
  | JBool b => b
  | JInt n => negb (n =? 0)
  | JFloat q => negb (Qeq_bool q 0)
  | JStr s => negb (String.eqb s EmptyString)
  | JArr l => match l with [] => false | _ => true end
  | JObj kv => match kv with [] => false | _ => true end
  end.

(** [k in j] for a [str] k: key membership on a dict, element membership on a
    list, substring on a str, [TypeError] on anything else. *)
Definition py_contains (k : string) (j : json) : result bool :=
  match j with
  | JObj kv => Ok (match assoc k kv with Some _ => true | None => false end)
  | JArr l => Ok (existsb (is_jstr k) l)
  | JStr s => Ok (str_in k s)
  | _ => Raise (Exception "TypeError" "argument is not iterable")
  end.

(** [j[k]] for a [str] k. *)
Definition py_getitem (j : json) (k : string) : result json :=
  match j with
  | JObj kv => match assoc k kv with
               | Some v => Ok v
               | None => Raise (Exception "KeyError" k)
               end
  | JArr _ => Raise (Exception "TypeError" "list indices must be integers")
  | JStr _ => Raise (Exception "TypeError" "string indices must be integers")
  | _ => Raise (Exception "TypeError" "object is not subscriptable")
  end.

Fixpoint chars (s : string) : list json :=
  match s with
  | EmptyString => []
  | String c s' => JStr (String c EmptyString) :: chars s'
  end.

(** The items [for x in j] runs over: the elements of a list, the keys of a
    dict, the characters of a str. *)
Definition py_iter (j : json) : result (list json) :=
  match j with
  | JArr l => Ok l
  | JObj kv => Ok (map (fun p => JStr (fst p)) kv)
  | JStr s => Ok (chars s)
  | _ => Raise (Exception "TypeError" "object is not iterable")
  end.

(** [xs[:n]]. *)
Definition slice_to {A} (n : nat) (xs : list A) : list A := firstn n xs.

(** A naive [datetime], in microseconds; [timedelta(days=d)]. *)
Definition datetime := Z.
Definition timedelta_days (d : Z) : Z := d * 86400000000.

(* ===================================================================== *)
(** ** The monad: state and exceptions

    [M S A] is a computation over a state [S] that returns an [A] or raises.
    The state reached when an exception is raised is kept, so a handler sees
    every effect the [try] block had before it failed. *)

Definition M (S A : Type) : Type := S -> result A * S.

Definition ret {S A} (a : A) : M S A := fun s => (Ok a, s).

Definition raise {S A} (e : exn) : M S A := fun s => (Raise e, s).

Definition bind {S A B} (m : M S A) (k : A -> M S B) : M S B :=
  fun s => match m s with
           | (Ok a, s') => k a s'
           | (Raise e, s') => (Raise e, s')
           end.

(** [try: m  except Exception as e: h e]. *)
Definition try_except {S A} (m : M S A) (h : exn -> M S A) : M S A :=
  fun s => match m s with
           | (Ok a, s') => (Ok a, s')
           | (Raise e, s') => h e s'
           end.

Definition of_result {S A} (r : result A) : M S A := fun s => (r, s).

Notation "'let*' x ':=' m 'in' k" := (bind m (fun x => k))
  (at level 10, x name, m at level 100, k at level 200).
Notation "m '>>' k" := (bind m (fun _ => k))
  (at level 90, right associativity).

(** [for x in xs: body x]. *)
Fixpoint for_in {S A} (xs : list A) (body : A -> M S unit) : M S unit :=
  match xs with
  | [] => ret tt
  | x :: xs' => body x >> for_in xs' body
  end.

(** [if c: m]. *)
Definition when {S} (c : bool) (m : M S unit) : M S unit :=
  if c then m else ret tt.

(* ===================================================================== *)
(** ** Text helpers *)

(** The ASCII characters [str.strip()] removes. *)
Definition is_space (c : ascii) : bool :=
  let n := nat_of_ascii c in
  ((9 <=? n) && (n <=? 13) || (28 <=? n) && (n <=? 32))%nat.

Fixpoint lstrip (s : list ascii) : list ascii :=
  match s with
  | c :: s' => if is_space c then lstrip s' else s
  | [] => []
  end.

Definition strip (s : string) : string :=
  string_of_list_ascii
    (rev (lstrip (rev (lstrip (list_ascii_of_string s))))).

(** [s.replace(c, '')] for a one-character [c]. *)
Fixpoint remove_char (c : ascii) (s : string) : string :=
  match s with
  | EmptyString => EmptyString
  | String a s' =>
      if Ascii.eqb a c then remove_char c s' else String a (remove_char c s')
  end.

Definition lower_ascii (c : ascii) : ascii :=
  let n := nat_of_ascii c in
  if ((65 <=? n) && (n <=? 90))%nat then ascii_of_nat (n + 32) else c.

(** [s.lower()] on ASCII text. *)
Fixpoint lower (s : string) : string :=
  match s with
  | EmptyString => EmptyString
  | String a s' => String (lower_ascii a) (lower s')
  end.

(* ===================================================================== *)
(** ** Data model *)

(** The dicts the adapters append.  [v_published] stands for
    [pub_date.isoformat()]. *)
Record video : Type := {
  v_title : string; v_url : string; v_published : datetime;
  v_description : string; v_channel : string }.

Record update : Type := {
  u_title : string; u_date : option string;
  u_description : string; u_url : string }.

Record repo : Type := {
  r_name : string; r_description : string; r_stars : string; r_url : string }.

Record post : Type := {
  p_title : string; p_url : string; p_published : datetime;
  p_summary : string }.

(** [d_permalink] is the value interpolated after ["https://reddit.com"] in
    the ['url'] entry; [d_score] and [d_comments] are stored as received. *)
Record discussion : Type := {
  d_title : json; d_permalink : json; d_score : json; d_comments : json;
  d_subreddit : string }.

(** The dict built by [scrape_all_sources], in the order its keys are set. *)
Record content : Type := {
  apple_updates : list update;
  youtube_videos : list video;
  github_trending : list repo;
  swift_blog : list post;
  reddit_discussions : list discussion }.

(** An entry of a parsed feed: an attribute that is absent raises
    [AttributeError] when read. *)
Record entry : Type := {
  e_title : option string; e_link : option string;
  e_published_parsed : option datetime;
  e_summary : option string; e_author : option string }.

(** A [div.update-item]: the text of its [h3], the [datetime] attribute of
    its [time] (when the element is there), the text of its [p], the [href]
    of its [a]. *)
Record update_item : Type := {
  i_h3 : option string; i_time : option (option string);
  i_p : option string; i_a : option (option string) }.

(** An [article.Box-row]: the text of its [h2], of its [p], of its
    stargazers link. *)
Record repo_item : Type := {
  i_h2 : option string; i_desc : option string; i_stars : option string }.

(** [self.sources]. *)
Record sources : Type := {
  src_apple_docs : string;
  src_swift_blog : string;
  src_wwdc_videos : string;
  src_youtube_channels : list string;
  src_github_trending : string;
  src_reddit_feeds : list string }.

Record ContentAgent : Type := { self_sources : sources }.

(** [ContentAgent.__init__]. *)
Definition init : ContentAgent :=
  {| self_sources :=
       {| src_apple_docs := "https://developer.apple.com/documentation/updates/";
          src_swift_blog := "https://swift.org/blog/";
          src_wwdc_videos := "https://developer.apple.com/videos/";
          src_youtube_channels :=
            [ "UC2D6eRvCeMtcF5OGHf1-trw";
              "UCuP2vJ6kRutQBfRmdcI92mA";
              "UC_7ZKZSqtXAcbmhEzVyg8Pw" ];
          src_github_trending := "https://github.com/trending/swift";
          src_reddit_feeds := [ "r/iOSProgramming"; "r/swift" ] |} |}.

(** [config.py]: the generation settings and quality thresholds of
    [AgentConfig]. *)
Module AgentConfig.
Definition CYCLE_INTERVAL_HOURS : Z := 6.
Definition MAX_VIDEOS_PER_CHANNEL : Z := 5.
Definition MAX_GITHUB_REPOS : Z := 10.
Definition CONTENT_FRESHNESS_DAYS : Z := 7.
Definition MIN_VIDEO_VIEWS : Z := 1000.
Definition MIN_GITHUB_STARS : Z := 50.
Definition MIN_REDDIT_SCORE : Z := 10.
End AgentConfig.

(* ===================================================================== *)
(** ** The outside world *)

Inductive prompt : Type :=
| AnalysisPrompt (videos : list video) (updates : list update)
    (repos : list repo) (posts : list post) (discussions : list discussion)
| GenerationPrompt (insights : json).

(** The arguments of [chat.completions.create]. *)
Record chat_request : Type := {
  model : string; messages : prompt; temperature : Q;
  max_tokens : option Z }.

(** A [ContentFile]: [decoded_content.decode('utf-8')] and [sha]. *)
Record content_file : Type := { decoded_content : string; sha : nat }.

(** A call the agent places on one of its clients: the HTTP session, the
    chat completion client, the GitHub repository. *)
Inductive call : Type :=
| SessionGet (url : string)
| ChatCreate (req : chat_request)
| GetContents (path : string)
| UpdateFile (path message : string) (body : json) (sha : nat)
| CreateFile (path message : string) (body : json)
| GetWorkflow (name : string)
| CreateDispatch (ref : string).

(** What [print] writes (the leading glyph of a line is left out). *)
Inductive message : Type :=
| Line (text : string)
| LineAt (text : string) (t : datetime)
| LineErr (text : string) (e : exn).

Inductive event : Type :=
| Called (c : call)
| Printed (m : message)
| Slept (seconds : Z).

(** Everything one cycle is run against.
    - [clock k] is what the k-th [datetime.now()] returns, [strftime_Ymd]
      is [strftime("%Y%m%d")];
    - [http_get url] is the body [session.get(url)] and [response.text()]
      yield, or the exception either raises;
    - [feedparser_parse], [soup_update_items], [soup_repo_items] are
      [feedparser.parse(..).entries], and [BeautifulSoup(..).find_all] on
      [div.update-item] and on [article.Box-row];
    - [json_loads] is [json.loads];
    - [chat_create] is the completion call followed by
      [response.choices[0].message.content];
    - [github_fault c] is the exception the GitHub API answers the call [c]
      with for reasons outside the content tree (authentication, network,
      a conflicting external edit). *)
Record Env : Type := {
  clock : nat -> datetime;
  strftime_Ymd : datetime -> string;
  http_get : string -> result string;
  feedparser_parse : string -> list entry;
  soup_update_items : string -> list update_item;
  soup_repo_items : string -> list repo_item;
  json_loads : string -> result json;
  chat_create : chat_request -> result string;
  github_fault : call -> option exn }.

(** The state the agent acts on: the content tree of the repository (path to
    file, with the revision counter that names the next blob), the number of
    clock readings so far, and the trace of events in the order they
    happened. *)
Record St : Type := {
  tree : gmap string content_file;
  next_sha : nat;
  ticks : nat;
  trace : list event }.

Definition set_trace (t : list event) (st : St) : St :=
  {| tree := tree st; next_sha := next_sha st; ticks := ticks st; trace := t |}.

Definition set_ticks (k : nat) (st : St) : St :=
  {| tree := tree st; next_sha := next_sha st; ticks := k; trace := trace st |}.

Definition write_file (path body : string) (st : St) : St :=
  {| tree := <[path := {| decoded_content := body; sha := next_sha st |}]> (tree st);
     next_sha := S (next_sha st); ticks := ticks st; trace := trace st |}.

Definition emit (ev : event) : M St unit :=
  fun st => (Ok tt, set_trace (trace st ++ [ev]) st).

Definition print (m : message) : M St unit := emit (Printed m).

Definition sleep (seconds : Z) : M St unit := emit (Slept seconds).

(** [datetime.now()]. *)
Definition now (E : Env) : M St datetime :=
  fun st => (Ok (clock E (ticks st)), set_ticks (S (ticks st)) st).

(** [async with session.get(url) as response: await response.text()]. *)
Definition session_get (E : Env) (url : string) : M St string :=
  emit (Called (SessionGet url)) >> of_result (http_get E url).

Definition fault (E : Env) (c : call) : M St unit :=
  match github_fault E c with
  | Some e => raise e
  | None => ret tt
  end.

(** PyGithub asserts that the content handed to [create_file] and
    [update_file] is a [str]. *)
Definition assert_str (body : json) : M St string :=
  match body with
  | JStr s => ret s
  | _ => raise (Exception "AssertionError" "content")
  end.

(** [self.repo.get_contents(path)]: the file at [path], or a 404. *)
Definition get_contents (E : Env) (path : string) : M St content_file :=
  emit (Called (GetContents path)) >>
  fault E (GetContents path) >>
  fun st => match tree st !! path with
            | Some f => (Ok f, st)
            | None => (Raise (Exception "UnknownObjectException" "404"), st)
            end.

(** [self.repo.create_file(path, message, content)]: refused on a path that
    exists (a write without the blob's sha). *)
Definition create_file (E : Env) (path msg : string) (body : json) : M St unit :=
  emit (Called (CreateFile path msg body)) >>
  let* s := assert_str body in
  fault E (CreateFile path msg body) >>
  fun st => match tree st !! path with
            | Some _ => (Raise (Exception "GithubException" "422"), st)
            | None => (Ok tt, write_file path s st)
            end.

(** [self.repo.update_file(path, message, content, sha)]: accepted when
    [sha] names the blob now at [path]. *)
Definition update_file (E : Env) (path msg : string) (body : json) (h : nat)
  : M St unit :=
  emit (Called (UpdateFile path msg body h)) >>
  let* s := assert_str body in
  fault E (UpdateFile path msg body h) >>
  fun st => match tree st !! path with
            | Some f =>
                if Nat.eqb (sha f) h then (Ok tt, write_file path s st)
                else (Raise (Exception "GithubException" "409"), st)
            | None => (Raise (Exception "UnknownObjectException" "404"), st)
            end.

Definition get_workflow (E : Env) (name : string) : M St unit :=
  emit (Called (GetWorkflow name)) >> fault E (GetWorkflow name).

Definition create_dispatch (E : Env) (ref : string) : M St unit :=
  emit (Called (CreateDispatch ref)) >> fault E (CreateDispatch ref).

Definition chat (E : Env) (req : chat_request) : M St string :=
  emit (Called (ChatCreate req)) >> of_result (chat_create E req).

(* ===================================================================== *)
(** ** Local lists

    An adapter runs over its result list and the world: [lift] runs a world
    action, [append] is [list.append], [returning] is the frame
    [xs = []; body; return xs]. *)

Definition lift {L A} (m : M St A) : M (L * St) A :=
  fun s => match m (snd s) with (r, w) => (r, (fst s, w)) end.

Definition append {R} (x : R) : M (list R * St) unit :=
  fun s => (Ok tt, (fst s ++ [x], snd s)).

Definition returning {R} (body : M (list R * St) unit) : M St (list R) :=
  fun st => match body ([], st) with
            | (Ok _, (xs, st')) => (Ok xs, st')
            | (Raise e, (_, st')) => (Raise e, st')
            end.

(** Reading an attribute of a parsed entry. *)
Definition attr {A} (name : string) (o : option A) : result A :=
  match o with
  | Some a => Ok a
  | None => Raise (Exception "AttributeError" name)
  end.

Definition nl : string := String "010"%char EmptyString.

(* ===================================================================== *)
(** ** Source adapters *)

Definition youtube_entry (E : Env) (entry : entry)
  : M (list video * St) unit :=
  let* pub_date := of_result (attr "published_parsed" (e_published_parsed entry)) in
  let* t := lift (now E) in
  when (t - pub_date <=? timedelta_days 7)
    (let* title := of_result (attr "title" (e_title entry)) in
     let* link := of_result (attr "link" (e_link entry)) in
     let* summary := of_result (attr "summary" (e_summary entry)) in
     let* author := of_result (attr "author" (e_author entry)) in
     append {| v_title := title; v_url := link; v_published := pub_date;
               v_description := summary; v_channel := author |}).

Definition youtube_channel (E : Env) (channel_id : string)
  : M (list video * St) unit :=
  try_except
    (let feed_url :=
       "https://www.youtube.com/feeds/videos.xml?channel_id=" +:+ channel_id in
     let* feed_data := lift (session_get E feed_url) in
     let feed := feedparser_parse E feed_data in
     for_in (slice_to 5 feed) (youtube_entry E))
    (fun e => lift (print (LineErr
       ("Error scraping YouTube channel " +:+ channel_id +:+ ": ") e))).

Definition scrape_youtube_content (self : ContentAgent) (E : Env)
  : M St (list video) :=
  returning
    (for_in (src_youtube_channels (self_sources self)) (youtube_channel E)).

Definition apple_item (item : update_item) : M (list update * St) unit :=
  match i_h3 item, i_time item with
  | Some title, Some date =>
      let* url := of_result
        (match i_a item with
         | Some (Some href) => Ok href
         | Some None => Raise (Exception "KeyError" "href")
         | None => Ok EmptyString
         end) in
      append {| u_title := strip title; u_date := date;
                u_description :=
                  match i_p item with Some d => strip d | None => EmptyString end;
                u_url := url |}
  | _, _ => ret tt
  end.

Definition scrape_apple_docs (self : ContentAgent) (E : Env)
  : M St (list update) :=
  returning
    (try_except
       (let* html := lift (session_get E (src_apple_docs (self_sources self))) in
        let update_items := slice_to 10 (soup_update_items E html) in
        for_in update_items apple_item)
       (fun e => lift (print (LineErr "Error scraping Apple docs: " e)))).

Definition github_item (item : repo_item) : M (list repo * St) unit :=
  match i_h2 item with
  | Some title =>
      let repo_name := remove_char " " (remove_char "010" (strip title)) in
      append {| r_name := repo_name;
                r_description :=
                  match i_desc item with Some d => strip d | None => EmptyString end;
                r_stars :=
                  match i_stars item with Some t => strip t | None => "0" end;
                r_url := "https://github.com/" +:+ repo_name |}
  | None => ret tt
  end.

Definition scrape_github_trending (self : ContentAgent) (E : Env)
  : M St (list repo) :=
  returning
    (try_except
       (let* html := lift (session_get E (src_github_trending (self_sources self))) in
        let repo_items := slice_to 10 (soup_repo_items E html) in
        for_in repo_items github_item)
       (fun e => lift (print (LineErr "Error scraping GitHub trending: " e)))).

Definition blog_entry (E : Env) (entry : entry) : M (list post * St) unit :=
  let* pub_date := of_result (attr "published_parsed" (e_published_parsed entry)) in
  let* t := lift (now E) in
  when (t - pub_date <=? timedelta_days 30)
    (let* title := of_result (attr "title" (e_title entry)) in
     let* link := of_result (attr "link" (e_link entry)) in
     let* summary := of_result (attr "summary" (e_summary entry)) in
     append {| p_title := title; p_url := link; p_published := pub_date;
               p_summary := summary |}).

Definition scrape_swift_blog (self : ContentAgent) (E : Env)
  : M St (list post) :=
  returning
    (try_except
       (let feed_url := "https://swift.org/blog/feed.xml" in
        let* feed_data := lift (session_get E feed_url) in
        let feed := feedparser_parse E feed_data in
        for_in (slice_to 5 feed) (blog_entry E))
       (fun e => lift (print (LineErr "Error scraping Swift blog: " e)))).

Definition reddit_keywords : list string :=
  ["swift"; "ios"; "xcode"; "swiftui"; "performance"; "monetization"].

(** [post_data['title'].lower()]. *)
Definition title_lower (title : json) : result string :=
  match title with
  | JStr s => Ok (lower s)
  | _ => Raise (Exception "AttributeError" "lower")
  end.

Definition reddit_post (subreddit : string) (post : json)
  : M (list discussion * St) unit :=
  let* post_data := of_result (py_getitem post "data") in
  let* title := of_result (py_getitem post_data "title") in
  let* low := of_result (title_lower title) in
  when (existsb (fun keyword => str_in keyword low) reddit_keywords)
    (let* permalink := of_result (py_getitem post_data "permalink") in
     let* score := of_result (py_getitem post_data "score") in
     let* comments := of_result (py_getitem post_data "num_comments") in
     append {| d_title := title; d_permalink := permalink; d_score := score;
               d_comments := comments; d_subreddit := subreddit |}).

Definition reddit_feed (E : Env) (subreddit : string)
  : M (list discussion * St) unit :=
  try_except
    (let url := "https://www.reddit.com/" +:+ subreddit +:+ "/hot.json?limit=10" in
     let* body := lift (session_get E url) in
     let* data := of_result (json_loads E body) in
     let* inner := of_result (py_getitem data "data") in
     let* children := of_result (py_getitem inner "children") in
     let* posts := of_result (py_iter children) in
     for_in posts (reddit_post subreddit))
    (fun e => lift (print (LineErr
       ("Error scraping Reddit " +:+ subreddit +:+ ": ") e))).

Definition scrape_reddit_content (self : ContentAgent) (E : Env)
  : M St (list discussion) :=
  returning
    (for_in (src_reddit_feeds (self_sources self)) (reddit_feed E)).

Definition scrape_all_sources (self : ContentAgent) (E : Env) : M St content :=
  let* apple := scrape_apple_docs self E in
  let* youtube := scrape_youtube_content self E in
  let* github := scrape_github_trending self E in
  let* blog := scrape_swift_blog self E in
  let* reddit := scrape_reddit_content self E in
  ret {| apple_updates := apple; youtube_videos := youtube;
         github_trending := github; swift_blog := blog;
         reddit_discussions := reddit |}.

(* ===================================================================== *)
(** ** Analysis and generation *)

Definition analyze_content (E : Env) (content_data : content) : M St json :=
  let analysis_prompt :=
    AnalysisPrompt (slice_to 5 (youtube_videos content_data))
                   (slice_to 5 (apple_updates content_data))
                   (slice_to 5 (github_trending content_data))
                   (slice_to 3 (swift_blog content_data))
                   (slice_to 5 (reddit_discussions content_data)) in
  try_except
    (let* response := chat E {| model := "gpt-4"; messages := analysis_prompt;
                                temperature := 3 # 10; max_tokens := None |} in
     let* insights := of_result (json_loads E response) in
     ret insights)
    (fun e => print (LineErr "Error analyzing content: " e) >> ret (JObj [])).

Definition generate_course_updates (E : Env) (insights : json) : M St json :=
  let generation_prompt := GenerationPrompt insights in
  try_except
    (let* response := chat E {| model := "gpt-4"; messages := generation_prompt;
                                temperature := 4 # 10;
                                max_tokens := Some 4000 |} in
     let* updates := of_result (json_loads E response) in
     ret updates)
    (fun e => print (LineErr "Error generating content: " e) >> ret (JObj [])).

(* ===================================================================== *)
(** ** Publisher *)

Definition chapter_path (timestamp : string) : string :=
  "book/src/auto-generated/chapter_" +:+ timestamp +:+ ".md".

Definition summary_path : string := "book/src/SUMMARY.md".

Definition summary_heading : string := "# Auto-Generated Content".

Definition summary_line (timestamp : string) : string :=
  "- [Auto-Generated " +:+ timestamp +:+ "](./auto-generated/chapter_"
    +:+ timestamp +:+ ".md)" +:+ nl.

Definition update_summary_file (E : Env) (timestamp : string) : M St unit :=
  try_except
    (let* summary_file := get_contents E summary_path in
     let current_content := decoded_content summary_file in
     let new_line := summary_line timestamp in
     let current_content :=
       if negb (str_in summary_heading current_content)
       then current_content +:+ (nl +:+ summary_heading +:+ nl +:+ nl)
       else current_content in
     let current_content := current_content +:+ new_line in
     update_file E summary_path
       ("Auto-update: Add chapter " +:+ timestamp +:+ " to summary")
       (JStr current_content) (sha summary_file))
    (fun e => print (LineErr "Error updating SUMMARY.md: " e)).

(** The inner [try] of [update_course_repo]; its [except:] is bare. *)
Definition create_or_update (E : Env) (filename timestamp : string)
    (file_content : json) : M St unit :=
  try_except
    (let* file := get_contents E filename in
     update_file E filename ("Auto-update: New chapter " +:+ timestamp)
       file_content (sha file))
    (fun _ =>
       create_file E filename ("Auto-generate: New chapter " +:+ timestamp)
         file_content).

Definition update_course_repo (E : Env) (new_content : json) : M St unit :=
  if negb (py_truthy new_content) then ret tt
  else
    try_except
      (let* has_chapter := of_result (py_contains "new_chapter" new_content) in
       let* timestamp :=
         (if has_chapter : bool then
            let* t := now E in
            let timestamp := strftime_Ymd E t in
            let filename := chapter_path timestamp in
            let* file_content := of_result (py_getitem new_content "new_chapter") in
            create_or_update E filename timestamp file_content >>
            ret (Some timestamp)
          else ret None) in
       let* has_chapter := of_result (py_contains "new_chapter" new_content) in
       (if has_chapter : bool then
          match timestamp with
          | Some timestamp => update_summary_file E timestamp
          | None => raise (Exception "UnboundLocalError" "timestamp")
          end
        else ret tt) >>
       print (Line "Repository updated with new content"))
      (fun e => print (LineErr "Error updating repository: " e)).

Definition deploy_updates (E : Env) : M St unit :=
  try_except
    (get_workflow E "deploy.yml" >>
     create_dispatch E "main" >>
     print (Line "Deployment triggered"))
    (fun e => print (LineErr "Error triggering deployment: " e)).

(* ===================================================================== *)
(** ** The cycle and its scheduler *)

(** Steps 1 to 5 of the body of the loop. *)
Definition pipeline (self : ContentAgent) (E : Env) : M St unit :=
  let* content_data := scrape_all_sources self E in
  let* insights := analyze_content E content_data in
  let* new_content := generate_course_updates E insights in
  update_course_repo E new_content >>
  deploy_updates E.

(** One pass through the [try] of the loop, for the steps [steps]. *)
Definition iteration (E : Env) (steps : M St unit) : M St unit :=
  try_except
    (let* t := now E in
     print (LineAt "Starting content cycle at " t) >>
     steps >>
     print (Line "Cycle completed. Sleeping for 6 hours...") >>
     sleep (6 * 3600))
    (fun e =>
       print (LineErr "Error in autonomous cycle: " e) >>
       sleep 1800).

(** How far a [while True] got: still looping when the fuel ran out, or left
    by an exception. *)
Inductive status : Type :=
| Looping
| Escaped (e : exn).

(** [while True: body k], for [fuel] passes starting at pass [k]. *)
Fixpoint while_true {S} (fuel : nat) (body : nat -> M S unit) (k : nat)
  : S -> status * S :=
  fun s =>
    match fuel with
    | O => (Looping, s)
    | Datatypes.S fuel' =>
        match body k s with
        | (Ok _, s') => while_true fuel' body (Datatypes.S k) s'
        | (Raise e, s') => (Escaped e, s')
        end
    end.

(** The scheduler over arbitrary steps: pass [k] runs [steps k] against the
    world [envs k]. *)
Definition scheduler (envs : nat -> Env) (steps : nat -> M St unit)
    (fuel : nat) : St -> status * St :=
  while_true fuel (fun k => iteration (envs k) (steps k)) O.

Definition run_autonomous_cycle (self : ContentAgent) (envs : nat -> Env)
    (fuel : nat) : St -> status * St :=
  scheduler envs (fun k => pipeline self (envs k)) fuel.

(* ===================================================================== *)
(** ** Observations *)

(** The events of [st'] that came after [st]. *)
Definition since (st st' : St) : list event :=
  skipn (length (trace st)) (trace st').

Definition is_chat (ev : event) : bool :=
  match ev with Called (ChatCreate _) => true | _ => false end.

Definition is_write (ev : event) : bool :=
  match ev with
  | Called (CreateFile _ _ _) | Called (UpdateFile _ _ _ _) => true
  | _ => false
  end.

(** A creation or an update of the file at [path]. *)
Definition writes_to (path : string) (ev : event) : bool :=
  match ev with
  | Called (CreateFile p _ _) | Called (UpdateFile p _ _ _) => String.eqb p path
  | _ => false
  end.

Definition is_deploy (ev : event) : bool :=
  match ev with
  | Called (GetWorkflow _) | Called (CreateDispatch _) => true
  | _ => false
  end.

Definition is_sleep (ev : event) : bool :=
  match ev with Slept _ => true | _ => false end.

(** Number of positions of [s] at which [sub] starts. *)
Fixpoint occurrences (sub s : string) : nat :=
  ((match strip_prefix sub s with Some _ => 1 | None => 0 end) +
   match s with
   | EmptyString => 0
   | String _ s' => occurrences sub s'
   end)%nat.

(* ===================================================================== *)
(** ** Sample worlds *)

Definition day : Z := 86400000000.

Definition empty_tree : St :=
  {| tree := ∅; next_sha := 0; ticks := 0; trace := [] |}.

(** A repository that has its table of contents. *)
Definition book : St :=
  {| tree := {[ summary_path :=
                  {| decoded_content := "# Summary" +:+ nl; sha := 0 |} ]};
     next_sha := 1; ticks := 0; trace := [] |}.

(** Every request fails, every call to the model fails, GitHub is healthy. *)
Definition offline : Env :=
  {| clock := fun _ => 100 * day;
     strftime_Ymd := fun _ => "20260105";
     http_get := fun _ => Raise (Exception "ClientConnectorError" "unreachable");
     feedparser_parse := fun _ => [];
     soup_update_items := fun _ => [];
     soup_repo_items := fun _ => [];
     json_loads := fun s =>
       if String.eqb s "CHAPTER"
       then Ok (JObj [("new_chapter", JStr "# Lesson")])
       else Raise (Exception "JSONDecodeError" s);
     chat_create := fun _ => Raise (Exception "APIConnectionError" EmptyString);
     github_fault := fun _ => None |}.

Definition with_chat (f : chat_request -> result string) (E : Env) : Env :=
  {| clock := clock E; strftime_Ymd := strftime_Ymd E; http_get := http_get E;
     feedparser_parse := feedparser_parse E;
     soup_update_items := soup_update_items E;
     soup_repo_items := soup_repo_items E; json_loads := json_loads E;
     chat_create := f; github_fault := github_fault E |}.

Definition with_fault (f : call -> option exn) (E : Env) : Env :=
  {| clock := clock E; strftime_Ymd := strftime_Ymd E; http_get := http_get E;
     feedparser_parse := feedparser_parse E;
     soup_update_items := soup_update_items E;
     soup_repo_items := soup_repo_items E; json_loads := json_loads E;
     chat_create := chat_create E; github_fault := f |}.

Definition with_http (f : string -> result string) (E : Env) : Env :=
  {| clock := clock E; strftime_Ymd := strftime_Ymd E; http_get := f;
     feedparser_parse := feedparser_parse E;
     soup_update_items := soup_update_items E;
     soup_repo_items := soup_repo_items E; json_loads := json_loads E;
     chat_create := chat_create E; github_fault := github_fault E |}.

(** The analysis call fails; the generation call answers with a chapter. *)
Definition analysis_down : Env :=
  with_chat (fun req =>
               match messages req with
               | GenerationPrompt _ => Ok "CHAPTER"
               | _ => Raise (Exception "APIConnectionError" EmptyString)
               end) offline.

(** Both calls to the model answer; the first answer parses to a chapter and
    so does the second. *)
Definition model_up : Env := with_chat (fun _ => Ok "CHAPTER") offline.

(** As [model_up], with every write to the content tree refused. *)
Definition writes_refused : Env :=
  with_fault (fun c =>
                match c with
                | CreateFile _ _ _ | UpdateFile _ _ _ _ =>
                    Some (Exception "GithubException" "409")
                | _ => None
                end) model_up.

(* ===================================================================== *)
(** ** Reasoning about computations *)

(** The events of the adapters, of the two calls to the model, of the
    publisher: none of them is a deployment call or a sleep. *)
Definition is_scrape (ev : event) : bool :=
  match ev with Called (SessionGet _) | Printed _ => true | _ => false end.

Definition is_model (ev : event) : bool :=
  match ev with Called (ChatCreate _) | Printed _ => true | _ => false end.

Definition is_publish (ev : event) : bool :=
  match ev with
  | Called (GetContents _) | Called (CreateFile _ _ _)
  | Called (UpdateFile _ _ _ _) | Printed _ => true
  | _ => false
  end.

Definition pre_deploy (ev : event) : bool :=
  negb (is_deploy ev) && negb (is_sleep ev).

Definition is_deploy_or_print (ev : event) : bool :=
  match ev with Printed _ => true | _ => is_deploy ev end.

(** [total m]: [m] returns from every state, it never raises. *)
Definition total {S A} (m : M S A) : Prop :=
  forall s, exists a, fst (m s) = Ok a.

Class Traced (S : Type) := events_of : S -> list event.
#[global] Instance traced_world : Traced St := trace.
#[global] Instance traced_local {L} : Traced (L * St) := fun s => trace (snd s).

(** [emits P m]: [m] only adds events to the trace, and all of them
    satisfy [P]. *)
Definition emits {S} `{Traced S} {A} (P : event -> bool) (m : M S A) : Prop :=
  forall s, exists evs,
    events_of (snd (m s)) = events_of s ++ evs /\ forallb P evs = true.


(** Steps 1 to 4 of the pipeline, without the deployment step. *)
Definition before_deploy (self : ContentAgent) (E : Env) : M St unit :=
  let* content_data := scrape_all_sources self E in
  let* insights := analyze_content E content_data in
  let* new_content := generate_course_updates E insights in
  update_course_repo E new_content.

(** The state in which the steps of a pass start: the clock was read and the
    opening line printed. *)
Definition started (E : Env) (st : St) : St :=
  set_trace (trace st ++ [Printed (LineAt "Starting content cycle at " (clock E (ticks st)))])
            (set_ticks (S (ticks st)) st).


(** The table of contents with the heading of the generated section, and with
    the line of one chapter after it. *)
Definition with_heading (current_content : string) : string :=
  if negb (str_in summary_heading current_content)
  then current_content +:+ (nl +:+ summary_heading +:+ nl +:+ nl)
  else current_content.

Definition with_chapter_line (current_content timestamp : string) : string :=
  with_heading current_content +:+ summary_line timestamp.

(** The state a fault-free publication of [body] under the date [timestamp]
    leaves: the chapter written by [chapter_call] after the read of its
    path, the table of contents read and rewritten with one more line, the
    closing line printed. *)
Definition published (timestamp body : string) (chapter_call : call)
    (summary_file : content_file) (st : St) : St :=
  let st_a :=
    write_file (chapter_path timestamp) body
      (set_trace (trace st ++ [Called (GetContents (chapter_path timestamp));
                               Called chapter_call])
                 (set_ticks (S (ticks st)) st)) in
  let new_summary := with_chapter_line (decoded_content summary_file) timestamp in
  let st_b :=
    write_file summary_path new_summary
      (set_trace (trace st_a ++
                    [Called (GetContents summary_path);
                     Called (UpdateFile summary_path
                               ("Auto-update: Add chapter " +:+ timestamp +:+ " to summary")
                               (JStr new_summary) (sha summary_file))])
                 st_a) in
  set_trace (trace st_b ++ [Printed (Line "Repository updated with new content")])
            st_b.

(** A repository in which the chapter of 2026-01-05 exists. *)
Definition book_with_chapter : St :=
  {| tree := {[ summary_path :=
                  {| decoded_content := "# Summary" +:+ nl; sha := 0 |};
                chapter_path "20260105" :=
                  {| decoded_content := "# Lesson"; sha := 1 |} ]};
     next_sha := 2; ticks := 0; trace := [] |}.

(** GitHub answers every versioned update with a conflict. *)
Definition updates_conflict : Env :=
  with_fault (fun c =>
                match c with
                | UpdateFile _ _ _ _ => Some (Exception "GithubException" "409")
                | _ => None
                end) model_up.

(* ===================================================================== *)
(** ** The adapters, seen from outside *)

Inductive adapter : Type :=
| AppleDocs | YouTube | GitHubTrending | SwiftBlog | Reddit.

Definition youtube_feed_url (channel_id : string) : string :=
  "https://www.youtube.com/feeds/videos.xml?channel_id=" +:+ channel_id.

Definition reddit_url (subreddit : string) : string :=
  "https://www.reddit.com/" +:+ subreddit +:+ "/hot.json?limit=10".

(** The addresses an adapter requests. *)
Definition requests (self : ContentAgent) (a : adapter) : list string :=
  match a with
  | AppleDocs => [src_apple_docs (self_sources self)]
  | YouTube => map youtube_feed_url (src_youtube_channels (self_sources self))
  | GitHubTrending => [src_github_trending (self_sources self)]
  | SwiftBlog => ["https://swift.org/blog/feed.xml"]
  | Reddit => map reddit_url (src_reddit_feeds (self_sources self))
  end.

(** Whether an adapter returns the empty list, without raising. *)
Definition returns_nothing (self : ContentAgent) (E : Env) (st : St)
    (a : adapter) : Prop :=
  match a with
  | AppleDocs => fst (scrape_apple_docs self E st) = Ok []
  | YouTube => fst (scrape_youtube_content self E st) = Ok []
  | GitHubTrending => fst (scrape_github_trending self E st) = Ok []
  | SwiftBlog => fst (scrape_swift_blog self E st) = Ok []
  | Reddit => fst (scrape_reddit_content self E st) = Ok []
  end.



(** *** Freshness, as the specification words it

    [keepIfRecent]: a record is dropped exactly when its age exceeds the
    window. *)
Definition keepIfRecent (published_at : datetime) (window_days : Z)
    (now : datetime) : bool :=
  negb (timedelta_days window_days <? now - published_at).

Definition published_at (e : entry) : datetime :=
  match e_published_parsed e with Some d => d | None => 0 end.

(** The entries of a feed, each with the clock reading taken when the loop
    reaches it, the first one at reading [k]. *)
Definition stamped (clock : nat -> datetime) (k : nat) (es : list entry)
  : list (entry * datetime) :=
  combine es (map clock (seq k (length es))).

Definition fresh_entries (window_days : Z) (clock : nat -> datetime) (k : nat)
    (es : list entry) : list entry :=
  map fst
    (List.filter (fun p => keepIfRecent (published_at (fst p)) window_days (snd p))
       (stamped clock k es)).

Definition text_of (o : option string) : string :=
  match o with Some s => s | None => EmptyString end.

Definition video_of (e : entry) : video :=
  {| v_title := text_of (e_title e); v_url := text_of (e_link e);
     v_published := published_at e; v_description := text_of (e_summary e);
     v_channel := text_of (e_author e) |}.

Definition post_of (e : entry) : post :=
  {| p_title := text_of (e_title e); p_url := text_of (e_link e);
     p_published := published_at e; p_summary := text_of (e_summary e) |}.

Definition has {A} (o : option A) : bool :=
  match o with Some _ => true | None => false end.

(** An entry that carries every attribute the blog loop reads, the video
    loop reads. *)
Definition complete_post (e : entry) : bool :=
  has (e_published_parsed e) && has (e_title e) && has (e_link e) &&
  has (e_summary e).

Definition complete_video (e : entry) : bool :=
  complete_post e && has (e_author e).

(** *** Reddit listings *)

Record listed_post : Type := {
  lp_title : string; lp_permalink : json; lp_score : json; lp_comments : json }.

Definition post_json (p : listed_post) : json :=
  JObj [("kind", JStr "t3");
        ("data", JObj [("title", JStr (lp_title p));
                       ("score", lp_score p);
                       ("num_comments", lp_comments p);
                       ("permalink", lp_permalink p)])].

Definition listing (posts : list listed_post) : json :=
  JObj [("kind", JStr "Listing");
        ("data", JObj [("children", JArr (map post_json posts))])].

(** The test of the Reddit loop: it reads the title and nothing else. *)
Definition relevant (p : listed_post) : bool :=
  existsb (fun keyword => str_in keyword (lower (lp_title p))) reddit_keywords.

Definition discussion_of (subreddit : string) (p : listed_post) : discussion :=
  {| d_title := JStr (lp_title p); d_permalink := lp_permalink p;
     d_score := lp_score p; d_comments := lp_comments p;
     d_subreddit := subreddit |}.

Definition score_of (d : discussion) : Z :=
  match d_score d with JInt n => n | _ => 0 end.

(** Reddit answers both subreddits with one post, "Swift 6 tips", of score 0;
    every other request fails. *)
Definition unpopular : listed_post :=
  {| lp_title := "Swift 6 tips"; lp_permalink := JStr "/r/swift/comments/1";
     lp_score := JInt 0; lp_comments := JInt 0 |}.

Definition with_json (f : string -> result json) (E : Env) : Env :=
  {| clock := clock E; strftime_Ymd := strftime_Ymd E; http_get := http_get E;
     feedparser_parse := feedparser_parse E;
     soup_update_items := soup_update_items E;
     soup_repo_items := soup_repo_items E; json_loads := f;
     chat_create := chat_create E; github_fault := github_fault E |}.

Definition reddit_up : Env :=
  with_json (fun s => if String.eqb s "LISTING" then Ok (listing [unpopular])
                      else json_loads offline s)
    (with_http (fun url => if str_in "reddit.com" url then Ok "LISTING"
                           else http_get offline url) offline).

(** The channel feed and the blog feed answer.  The clock stands at day 100;
    the channel feed has a video published exactly 7 days before, one a
    microsecond older, and one of the day before; the blog feed has a post
    published exactly 30 days before and one a microsecond older. *)
Definition entry_at (title : string) (t : datetime) : entry :=
  {| e_title := Some title; e_link := Some ("https://example.org/" +:+ title);
     e_published_parsed := Some t; e_summary := Some EmptyString;
     e_author := Some "Apple Developer" |}.

Definition feeds_up : Env :=
  {| clock := fun _ => 100 * day;
     strftime_Ymd := strftime_Ymd offline;
     http_get := fun url =>
       if String.eqb url (youtube_feed_url "UC2D6eRvCeMtcF5OGHf1-trw")
       then Ok "VIDEOS"
       else if String.eqb url "https://swift.org/blog/feed.xml" then Ok "POSTS"
       else http_get offline url;
     feedparser_parse := fun s =>
       if String.eqb s "VIDEOS"
       then [entry_at "edge" (93 * day); entry_at "stale" (93 * day - 1);
             entry_at "new" (99 * day)]
       else if String.eqb s "POSTS"
       then [entry_at "edge" (70 * day); entry_at "stale" (70 * day - 1)]
       else [];
     soup_update_items := soup_update_items offline;
     soup_repo_items := soup_repo_items offline;
     json_loads := json_loads offline;
     chat_create := chat_create offline;
     github_fault := github_fault offline |}.

(* ===================================================================== *)
(** ** Candidate properties

    Properties one may expect of a cycle, stated over one agent, one world
    and one starting state.  Some hold of every run, some fail on a run
    given below. *)

(** Number of revisions the content tree gained between two states. *)
Definition revisions (st st' : St) : nat := (next_sha st' - next_sha st)%nat.

(** An empty set of insights makes the generation step return an empty
    result without calling the model. *)
Definition empty_insights_skip_generation
    (self : ContentAgent) (E : Env) (st : St) : Prop :=
  forall content_data st1 st2,
    scrape_all_sources self E st = (Ok content_data, st1) ->
    analyze_content E content_data st1 = (Ok (JObj []), st2) ->
    fst (generate_course_updates E (JObj []) st2) = Ok (JObj []) /\
    List.filter is_chat
      (since st2 (snd (generate_course_updates E (JObj []) st2))) = [].

(** A pass in which the content tree refuses a write ends with the short
    sleep. *)
Definition refused_write_backs_off
    (self : ContentAgent) (E : Env) (st : St) : Prop :=
  let st' := snd (iteration E (pipeline self E) st) in
  (exists c, In (Called c) (since st st') /\ is_write (Called c) = true /\
             github_fault E c <> None) ->
  List.filter is_sleep (since st st') = [Slept 1800].

(** The deployment calls are placed exactly in the cycles in which the
    content tree gained a revision. *)
Definition deploy_iff_changed
    (self : ContentAgent) (E : Env) (st : St) : Prop :=
  let st' := snd (pipeline self E st) in
  existsb is_deploy (since st st') = true <-> (0 < revisions st st')%nat.

(** Every discussion an adapter returns has a score of at least the
    configured minimum. *)
Definition reddit_threshold_applied
    (self : ContentAgent) (E : Env) (st : St) : Prop :=
  forall discussions d,
    fst (scrape_reddit_content self E st) = Ok discussions ->
    In d discussions -> AgentConfig.MIN_REDDIT_SCORE <= score_of d.

(* ===================================================================== *)
(** ** Further observations *)

Definition is_called (ev : event) : bool :=
  match ev with Called _ => true | _ => false end.

Definition is_printed (ev : event) : bool :=
  match ev with Printed _ => true | _ => false end.

(** The date the publisher stamps a chapter with when it starts in [st]. *)
Definition today (E : Env) (st : St) : string :=
  strftime_Ymd E (clock E (ticks st)).

(** A repository with a file the agent does not write. *)
Definition book_with_readme : St :=
  {| tree := {[ summary_path :=
                  {| decoded_content := "# Summary" +:+ nl; sha := 0 |};
                "README.md" :=
                  {| decoded_content := "# Course"; sha := 1 |} ]};
     next_sha := 2; ticks := 0; trace := [] |}.

(** The world [model_up] with every call to GitHub refused. *)
Definition github_down : Env :=
  with_fault (fun _ => Some (Exception "GithubException" "503")) model_up.

Definition is_jstring (j : json) : bool :=
  match j with JStr _ => true | _ => false end.

(** The two requests the agent sends to the model. *)
Definition analysis_request (content_data : content) : chat_request :=
  {| model := "gpt-4";
     messages := AnalysisPrompt (slice_to 5 (youtube_videos content_data))
                                (slice_to 5 (apple_updates content_data))
                                (slice_to 5 (github_trending content_data))
                                (slice_to 3 (swift_blog content_data))
                                (slice_to 5 (reddit_discussions content_data));
     temperature := 3 # 10; max_tokens := None |}.

Definition generation_request (insights : json) : chat_request :=
  {| model := "gpt-4"; messages := GenerationPrompt insights;
     temperature := 4 # 10; max_tokens := Some 4000 |}.

(** What a step makes of the model's answer to [req]: the parsed answer, or
    the empty dict when the call or the parse fails. *)
Definition parsed_or_empty (E : Env) (req : chat_request) : json :=
  match chat_create E req with
  | Ok text => match json_loads E text with
               | Ok j => j
               | Raise _ => JObj []
               end
  | Raise _ => JObj []
  end.

(** Number of records a prompt carries. *)
Definition prompt_size (p : prompt) : nat :=
  match p with
  | AnalysisPrompt videos updates repos posts discussions =>
      length videos + length updates + length repos + length posts +
      length discussions
  | GenerationPrompt _ => 0
  end.

(** A snapshot with four blog posts, the last one titled [title]. *)
Definition blog_post (title : string) : post :=
  {| p_title := title; p_url := "https://swift.org/blog/" +:+ title;
     p_published := 99 * day; p_summary := EmptyString |}.

Definition four_posts (title : string) : content :=
  {| apple_updates := []; youtube_videos := []; github_trending := [];
     swift_blog := [blog_post "a"; blog_post "b"; blog_post "c"; blog_post title];
     reddit_discussions := [] |}.

(** [fetches urls m]: [m] only adds events, and the calls among them are the
    requests for [urls], in this order. *)
Definition fetches {S} `{Traced S} {A} (urls : list string) (m : M S A) : Prop :=
  forall s, exists evs,
    events_of (snd (m s)) = events_of s ++ evs /\
    List.filter is_called evs = map (fun url => Called (SessionGet url)) urls.

(** [stable I m]: a property [I] of the state that holds before [m] holds
    after it, whether [m] returns or raises. *)
Definition stable {S A} (I : S -> Prop) (m : M S A) : Prop :=
  forall s, I s -> I (snd (m s)).

(** The content tree and its revision counter are those of [st0]. *)
Definition same_store (st0 st : St) : Prop :=
  tree st = tree st0 /\ next_sha st = next_sha st0.

(** Every address the agent requests in one cycle, in the order of
    [scrape_all_sources]. *)
Definition all_requests (self : ContentAgent) : list string :=
  requests self AppleDocs ++ requests self YouTube ++
  requests self GitHubTrending ++ requests self SwiftBlog ++
  requests self Reddit.

(** *** Pages of items *)

(** An item the Apple loop turns into a record: it has a title and a date. *)
Definition listed (item : update_item) : bool :=
  has (i_h3 item) && has (i_time item).

(** A listed item whose link has no [href]: reading it raises [KeyError]. *)
Definition broken_link (item : update_item) : bool :=
  listed item && match i_a item with Some None => true | _ => false end.

(** The items before the first one at which [stop] holds. *)
Fixpoint until {A} (stop : A -> bool) (xs : list A) : list A :=
  match xs with
  | [] => []
  | x :: xs' => if stop x then [] else x :: until stop xs'
  end.

Definition update_of (item : update_item) : update :=
  {| u_title := strip (text_of (i_h3 item));
     u_date := match i_time item with Some date => date | None => None end;
     u_description := match i_p item with Some d => strip d | None => EmptyString end;
     u_url := match i_a item with Some (Some href) => href | _ => EmptyString end |}.

Definition repo_name_of (item : repo_item) : string :=
  remove_char " " (remove_char "010" (strip (text_of (i_h2 item)))).

Definition repo_of (item : repo_item) : repo :=
  {| r_name := repo_name_of item;
     r_description := match i_desc item with Some d => strip d | None => EmptyString end;
     r_stars := match i_stars item with Some t => strip t | None => "0" end;
     r_url := "https://github.com/" +:+ repo_name_of item |}.

Definition titled (item : repo_item) : bool := has (i_h2 item).

(** Whether the character [c] occurs in [s]. *)
Fixpoint has_char (c : ascii) (s : string) : bool :=
  match s with
  | EmptyString => false
  | String a s' => Ascii.eqb a c || has_char c s'
  end.

Definition with_pages (updates : string -> list update_item)
    (repos : string -> list repo_item) (E : Env) : Env :=
  {| clock := clock E; strftime_Ymd := strftime_Ymd E; http_get := http_get E;
     feedparser_parse := feedparser_parse E;
     soup_update_items := updates; soup_repo_items := repos;
     json_loads := json_loads E; chat_create := chat_create E;
     github_fault := github_fault E |}.

(** Apple's page and GitHub's page answer.  The Apple page lists a dated
    update, a heading without a date, a dated update whose link has no
    [href], and one more dated update; the GitHub page lists a titled
    repository and a row without a title. *)
Definition apple_item_of (title : option string) (date : option (option string))
    (link : option (option string)) : update_item :=
  {| i_h3 := title; i_time := date; i_p := None; i_a := link |}.

Definition pages_up : Env :=
  with_pages
    (fun _ => [apple_item_of (Some "SwiftData") (Some (Some "2026-01-04"))
                 (Some (Some "/documentation/swiftdata"));
               apple_item_of (Some "Overview") None None;
               apple_item_of (Some "WidgetKit") (Some (Some "2026-01-03"))
                 (Some None);
               apple_item_of (Some "App Intents") (Some (Some "2026-01-02")) None])
    (fun _ => [{| i_h2 := Some (" apple /" +:+ nl +:+ "  swift "); i_desc := None;
                  i_stars := Some " 68,000 " |};
               {| i_h2 := None; i_desc := Some "no title"; i_stars := None |}])
    (with_http (fun url => if str_in "reddit" url then http_get offline url
                           else Ok "PAGE") offline).

(** [grows_by n m]: [m] leaves at most [n] more records in the list than it
    found, whether it returns or raises. *)
Definition grows_by {R A} (n : nat) (m : M (list R * St) A) : Prop :=
  forall acc st, (length (fst (snd (m (acc, st)))) <= length acc + n)%nat.

(** The length of what an adapter returned (0 for an adapter that raised). *)
Definition returned {R} (run : result (list R) * St) : nat :=
  match fst run with Ok xs => length xs | Raise _ => 0 end.

(** A record published at [published] was within [days] days at one of the
    clock readings [lo], ..., [hi - 1]. *)
Definition fresh_at (E : Env) (days : Z) (lo hi : nat) (published : datetime)
  : Prop :=
  exists k, (lo <= k < hi)%nat /\ clock E k - published <= timedelta_days days.

(** Every record collected so far was fresh at a reading taken since [lo]. *)
Definition all_fresh {R} (E : Env) (days : Z) (published : R -> datetime)
    (lo : nat) (s : list R * St) : Prop :=
  (lo <= ticks (snd s))%nat /\
  Forall (fun x => fresh_at E days lo (ticks (snd s)) (published x)) (fst s).

(** What the Reddit loop runs over for a response body: the parsed body,
    its ['data'], the ['children'] of that, iterated; or the first exception
    on the way. *)
Definition listing_children (E : Env) (body : string) : result (list json) :=
  match json_loads E body with
  | Ok data =>
      match py_getitem data "data" with
      | Ok inner =>
          match py_getitem inner "children" with
          | Ok children => py_iter children
          | Raise e => Raise e
          end
      | Raise e => Raise e
      end
  | Raise e => Raise e
  end.

(** The blog feed answers with a fresh post, an entry without a date, and
    another fresh post. *)
Definition undated_entry : entry :=
  {| e_title := Some "undated"; e_link := Some "https://swift.org/blog/undated";
     e_published_parsed := None; e_summary := Some EmptyString;
     e_author := None |}.

Definition blog_with_undated_entry : Env :=
  {| clock := clock feeds_up; strftime_Ymd := strftime_Ymd feeds_up;
     http_get := http_get feeds_up;
     feedparser_parse := fun _ =>
       [entry_at "first" (99 * day); undated_entry; entry_at "third" (99 * day)];
     soup_update_items := soup_update_items feeds_up;
     soup_repo_items := soup_repo_items feeds_up;
     json_loads := json_loads feeds_up; chat_create := chat_create feeds_up;
     github_fault := github_fault feeds_up |}.

(** Reddit answers with a listing of a relevant post, a child that is not a
    post, and another relevant post; and with a body that is an error
    message. *)
Definition popular : listed_post :=
  {| lp_title := "Xcode 26 performance"; lp_permalink := JStr "/r/swift/comments/2";
     lp_score := JInt 250; lp_comments := JInt 40 |}.

Definition reddit_with_stray_child : Env :=
  with_json (fun s =>
               if String.eqb s "LISTING"
               then Ok (JObj [("data",
                          JObj [("children",
                                 JArr [post_json popular; JStr "more";
                                       post_json unpopular])])])
               else json_loads offline s)
    reddit_up.

Definition reddit_rate_limited : Env :=
  with_json (fun s =>
               if String.eqb s "LISTING"
               then Ok (JObj [("message", JStr "Too Many Requests");
                              ("error", JInt 429)])
               else json_loads offline s)
    reddit_up.


(* ===================================================================== *)
(** ** The origins of an adapter, one by one *)








(* ===================================================================== *)
(** * Properties *)

(** Closes [run = (r, ?st)] on a closed run by evaluating it. *)
Ltac run_to_value :=
  match goal with
  | |- ?run = _ =>
      let v := eval vm_compute in run in
      transitivity v; [vm_compute; reflexivity | reflexivity]
  end.

Section Total.
Context {S : Type}.

Lemma total_ret {A} (a : A) : total (S := S) (ret a).
Proof. intros s. exists a. reflexivity. Qed.

Lemma total_bind {A B} (m : M S A) (k : A -> M S B) :
  total m -> (forall a, total (k a)) -> total (bind m k).
Proof.
  intros Hm Hk s. unfold bind.
  destruct (Hm s) as [a Ha]. destruct (m s) as [r s1]. simpl in Ha. subst r.
  apply Hk.
Qed.

Lemma total_try_except {A} (m : M S A) (h : exn -> M S A) :
  (forall e, total (h e)) -> total (try_except m h).
Proof.
  intros Hh s. unfold try_except.
  destruct (m s) as [[a|e] s1]; [exists a; reflexivity | apply Hh].
Qed.

Lemma total_for_in {A} (xs : list A) (body : A -> M S unit) :
  (forall x, total (body x)) -> total (for_in xs body).
Proof.
  intros Hb. induction xs as [|x xs IH]; simpl.
  - apply total_ret.
  - apply total_bind; auto.
Qed.

Lemma total_run {A} (m : M S A) (s : S) :
  total m -> exists a s', m s = (Ok a, s').
Proof.
  intros Hm. destruct (Hm s) as [a Ha]. destruct (m s) as [r s'].
  simpl in Ha. subst r. eauto.
Qed.
End Total.

Lemma total_lift {L A} (m : M St A) : total m -> total (lift (L := L) m).
Proof.
  intros Hm [l w]. unfold lift. simpl.
  destruct (Hm w) as [a Ha]. destruct (m w) as [r w']. simpl in *. eauto.
Qed.

Lemma total_emit ev : total (emit ev).
Proof. intros s. exists tt. reflexivity. Qed.

Lemma total_returning {R} (body : M (list R * St) unit) :
  total body -> total (returning body).
Proof.
  intros Hb st. unfold returning.
  destruct (Hb ([], st)) as [a Ha]. destruct (body ([], st)) as [r [xs st']].
  simpl in Ha. subst r. exists xs. reflexivity.
Qed.

Section Emits.
Context {S : Type} `{Traced S} (P : event -> bool).

Lemma emits_ret {A} (a : A) : emits P (ret (S := S) a).
Proof. intros s. exists []. simpl. rewrite app_nil_r. auto. Qed.

Lemma emits_raise {A} e : emits P (raise (S := S) (A := A) e).
Proof. intros s. exists []. simpl. rewrite app_nil_r. auto. Qed.

Lemma emits_of_result {A} (r : result A) : emits P (of_result (S := S) r).
Proof. intros s. exists []. simpl. rewrite app_nil_r. auto. Qed.

Lemma emits_bind {A B} (m : M S A) (k : A -> M S B) :
  emits P m -> (forall a, emits P (k a)) -> emits P (bind m k).
Proof.
  intros Hm Hk s. unfold bind.
  destruct (Hm s) as (evs & Hevs & HP). destruct (m s) as [[a|e] s1]; simpl in *.
  - destruct (Hk a s1) as (evs' & Hevs' & HP').
    exists (evs ++ evs'). rewrite Hevs', Hevs, <- app_assoc, forallb_app, HP, HP'.
    auto.
  - exists evs. auto.
Qed.

Lemma emits_try_except {A} (m : M S A) (h : exn -> M S A) :
  emits P m -> (forall e, emits P (h e)) -> emits P (try_except m h).
Proof.
  intros Hm Hh s. unfold try_except.
  destruct (Hm s) as (evs & Hevs & HP). destruct (m s) as [[a|e] s1]; simpl in *.
  - exists evs. auto.
  - destruct (Hh e s1) as (evs' & Hevs' & HP').
    exists (evs ++ evs'). rewrite Hevs', Hevs, <- app_assoc, forallb_app, HP, HP'.
    auto.
Qed.

Lemma emits_for_in {A} (xs : list A) (body : A -> M S unit) :
  (forall x, emits P (body x)) -> emits P (for_in xs body).
Proof.
  intros Hb. induction xs as [|x xs IH]; simpl.
  - apply emits_ret.
  - apply emits_bind; auto.
Qed.

Lemma emits_when (c : bool) (m : M S unit) : emits P m -> emits P (when c m).
Proof. destruct c; simpl; auto using emits_ret. Qed.
End Emits.

Lemma emits_lift {L A} P (m : M St A) : emits P m -> emits P (lift (L := L) m).
Proof.
  intros Hm [l w]. destruct (Hm w) as (evs & Hevs & HP). exists evs.
  unfold lift, events_of, traced_local in *. simpl.
  destruct (m w) as [r w']. simpl in *. auto.
Qed.

Lemma emits_append {R} P (x : R) : emits P (append x).
Proof. intros [l w]. exists []. simpl. rewrite app_nil_r. auto. Qed.

Lemma emits_returning {R} P (body : M (list R * St) unit) :
  emits P body -> emits P (returning body).
Proof.
  intros Hb st. destruct (Hb ([], st)) as (evs & Hevs & HP). exists evs.
  unfold returning, events_of, traced_local, traced_world in *.
  destruct (body ([], st)) as [[a|e] [xs st']]; simpl in *; auto.
Qed.

Lemma emits_emit P ev : P ev = true -> emits P (emit ev).
Proof.
  intros HP st. exists [ev]. simpl. rewrite HP. auto.
Qed.

Lemma emits_now P E : emits P (now E).
Proof. intros st. exists []. simpl. rewrite app_nil_r. auto. Qed.

Lemma emits_weaken {S} `{Traced S} {A} (P Q : event -> bool) (m : M S A) :
  (forall ev, P ev = true -> Q ev = true) -> emits P m -> emits Q m.
Proof.
  intros HPQ Hm s. destruct (Hm s) as (evs & Hevs & HP). exists evs.
  split; [assumption|]. rewrite forallb_forall in *. auto.
Qed.

(** *** The components never raise *)

Ltac total_step :=
  first [ apply total_returning | apply total_try_except | apply total_for_in
        | apply total_lift | apply total_emit | apply total_ret
        | apply total_bind | intro ].

Lemma total_print m : total (print m).
Proof. apply total_emit. Qed.

Lemma total_sleep n : total (sleep n).
Proof. apply total_emit. Qed.

Lemma total_now E : total (now E).
Proof. intros st. eexists. reflexivity. Qed.

Lemma total_scrape_apple_docs self E : total (scrape_apple_docs self E).
Proof. unfold scrape_apple_docs, print. repeat total_step. Qed.

Lemma total_scrape_youtube_content self E : total (scrape_youtube_content self E).
Proof. unfold scrape_youtube_content, youtube_channel, print. repeat total_step. Qed.

Lemma total_scrape_github_trending self E : total (scrape_github_trending self E).
Proof. unfold scrape_github_trending, print. repeat total_step. Qed.

Lemma total_scrape_swift_blog self E : total (scrape_swift_blog self E).
Proof. unfold scrape_swift_blog, print. repeat total_step. Qed.

Lemma total_scrape_reddit_content self E : total (scrape_reddit_content self E).
Proof. unfold scrape_reddit_content, reddit_feed, print. repeat total_step. Qed.

Lemma total_scrape_all_sources self E : total (scrape_all_sources self E).
Proof.
  unfold scrape_all_sources.
  apply total_bind; [apply total_scrape_apple_docs | intro].
  apply total_bind; [apply total_scrape_youtube_content | intro].
  apply total_bind; [apply total_scrape_github_trending | intro].
  apply total_bind; [apply total_scrape_swift_blog | intro].
  apply total_bind; [apply total_scrape_reddit_content | intro].
  apply total_ret.
Qed.

Lemma total_analyze_content E content_data : total (analyze_content E content_data).
Proof.
  unfold analyze_content. apply total_try_except. intro.
  apply total_bind; [apply total_print | intro; apply total_ret].
Qed.

Lemma total_generate_course_updates E insights :
  total (generate_course_updates E insights).
Proof.
  unfold generate_course_updates. apply total_try_except. intro.
  apply total_bind; [apply total_print | intro; apply total_ret].
Qed.

Lemma total_update_summary_file E timestamp : total (update_summary_file E timestamp).
Proof. unfold update_summary_file. apply total_try_except. intro. apply total_print. Qed.

Lemma total_update_course_repo E new_content : total (update_course_repo E new_content).
Proof.
  unfold update_course_repo. destruct (negb (py_truthy new_content)).
  - apply total_ret.
  - apply total_try_except. intro. apply total_print.
Qed.

Lemma total_deploy_updates E : total (deploy_updates E).
Proof. unfold deploy_updates. apply total_try_except. intro. apply total_print. Qed.

Lemma total_pipeline self E : total (pipeline self E).
Proof.
  unfold pipeline.
  apply total_bind; [apply total_scrape_all_sources | intro].
  apply total_bind; [apply total_analyze_content | intro].
  apply total_bind; [apply total_generate_course_updates | intro].
  apply total_bind; [apply total_update_course_repo | intro].
  apply total_deploy_updates.
Qed.

Lemma total_iteration E steps : total (iteration E steps).
Proof.
  unfold iteration. apply total_try_except. intro.
  apply total_bind; [apply total_print | intro; apply total_sleep].
Qed.

(** *** What the components emit *)

Ltac emits_step :=
  first [ apply emits_returning | apply emits_try_except | apply emits_for_in
        | apply emits_when | apply emits_lift | apply emits_append
        | apply emits_ret | apply emits_raise | apply emits_of_result
        | apply emits_now | apply emits_emit; reflexivity
        | apply emits_bind | intro ].

Lemma emits_scrape_apple_docs self E : emits is_scrape (scrape_apple_docs self E).
Proof.
  unfold scrape_apple_docs, session_get, print. repeat emits_step.
  unfold apple_item. destruct (i_h3 x), (i_time x); repeat emits_step.
Qed.

Lemma emits_scrape_youtube_content self E :
  emits is_scrape (scrape_youtube_content self E).
Proof.
  unfold scrape_youtube_content, youtube_channel, youtube_entry, session_get, print.
  repeat emits_step.
Qed.

Lemma emits_scrape_github_trending self E :
  emits is_scrape (scrape_github_trending self E).
Proof.
  unfold scrape_github_trending, session_get, print. repeat emits_step.
  unfold github_item. destruct (i_h2 x); repeat emits_step.
Qed.

Lemma emits_scrape_swift_blog self E : emits is_scrape (scrape_swift_blog self E).
Proof.
  unfold scrape_swift_blog, blog_entry, session_get, print. repeat emits_step.
Qed.

Lemma emits_scrape_reddit_content self E :
  emits is_scrape (scrape_reddit_content self E).
Proof.
  unfold scrape_reddit_content, reddit_feed, reddit_post, session_get, print.
  repeat emits_step.
Qed.

Lemma emits_scrape_all_sources self E : emits is_scrape (scrape_all_sources self E).
Proof.
  unfold scrape_all_sources.
  apply emits_bind; [apply emits_scrape_apple_docs | intro].
  apply emits_bind; [apply emits_scrape_youtube_content | intro].
  apply emits_bind; [apply emits_scrape_github_trending | intro].
  apply emits_bind; [apply emits_scrape_swift_blog | intro].
  apply emits_bind; [apply emits_scrape_reddit_content | intro].
  apply emits_ret.
Qed.

Lemma emits_analyze_content E content_data :
  emits is_model (analyze_content E content_data).
Proof. unfold analyze_content, chat, print. repeat emits_step. Qed.

Lemma emits_generate_course_updates E insights :
  emits is_model (generate_course_updates E insights).
Proof. unfold generate_course_updates, chat, print. repeat emits_step. Qed.

Lemma emits_fault P E c : emits P (fault E c).
Proof. unfold fault. destruct (github_fault E c); repeat emits_step. Qed.

Lemma emits_assert_str P body : emits P (assert_str body).
Proof. destruct body; simpl; repeat emits_step. Qed.

Lemma emits_get_contents E path : emits is_publish (get_contents E path).
Proof.
  unfold get_contents.
  apply emits_bind; [apply emits_emit; reflexivity | intro].
  apply emits_bind; [apply emits_fault | intro].
  intros st. exists []. destruct (tree st !! path); simpl; rewrite app_nil_r; auto.
Qed.

Lemma emits_create_file E path msg body : emits is_publish (create_file E path msg body).
Proof.
  unfold create_file.
  apply emits_bind; [apply emits_emit; reflexivity | intro].
  apply emits_bind; [apply emits_assert_str | intro].
  apply emits_bind; [apply emits_fault | intro].
  intros st. exists []. destruct (tree st !! path); simpl; rewrite app_nil_r; auto.
Qed.

Lemma emits_update_file E path msg body h :
  emits is_publish (update_file E path msg body h).
Proof.
  unfold update_file.
  apply emits_bind; [apply emits_emit; reflexivity | intro].
  apply emits_bind; [apply emits_assert_str | intro].
  apply emits_bind; [apply emits_fault | intro].
  intros st. exists [].
  destruct (tree st !! path) as [f|]; [destruct (Nat.eqb (sha f) h)|];
    simpl; rewrite app_nil_r; auto.
Qed.

Lemma emits_update_summary_file E timestamp :
  emits is_publish (update_summary_file E timestamp).
Proof.
  unfold update_summary_file, print.
  apply emits_try_except; [|intro; apply emits_emit; reflexivity].
  apply emits_bind; [apply emits_get_contents | intro; apply emits_update_file].
Qed.

Lemma emits_create_or_update E filename timestamp body :
  emits is_publish (create_or_update E filename timestamp body).
Proof.
  unfold create_or_update.
  apply emits_try_except; [|intro; apply emits_create_file].
  apply emits_bind; [apply emits_get_contents | intro; apply emits_update_file].
Qed.

Lemma emits_update_course_repo E new_content :
  emits is_publish (update_course_repo E new_content).
Proof.
  unfold update_course_repo, print. destruct (negb (py_truthy new_content)).
  - apply emits_ret.
  - apply emits_try_except; [|intro; apply emits_emit; reflexivity].
    apply emits_bind; [apply emits_of_result | intros has].
    apply emits_bind.
    + destruct has; [|apply emits_ret].
      apply emits_bind; [apply emits_now | intro].
      apply emits_bind; [apply emits_of_result | intro].
      apply emits_bind; [apply emits_create_or_update | intro; apply emits_ret].
    + intros ts. apply emits_bind; [apply emits_of_result | intros has2].
      apply emits_bind; [|intro; apply emits_emit; reflexivity].
      destruct has2; [|apply emits_ret].
      destruct ts; [apply emits_update_summary_file | apply emits_raise].
Qed.

(** Steps 1 to 4 place no deployment call and do not sleep. *)
Lemma emits_before_deploy self E :
  emits pre_deploy
    (let* content_data := scrape_all_sources self E in
     let* insights := analyze_content E content_data in
     let* new_content := generate_course_updates E insights in
     update_course_repo E new_content).
Proof.
  apply emits_bind; [|intro; apply emits_bind; [|intro; apply emits_bind; [|intro]]].
  - eapply emits_weaken; [|apply emits_scrape_all_sources]. intros [[]| |]; auto.
  - eapply emits_weaken; [|apply emits_analyze_content]. intros [[]| |]; auto.
  - eapply emits_weaken; [|apply emits_generate_course_updates]. intros [[]| |]; auto.
  - eapply emits_weaken; [|apply emits_update_course_repo]. intros [[]| |]; auto.
Qed.

Lemma emits_deploy_updates E : emits is_deploy_or_print (deploy_updates E).
Proof.
  unfold deploy_updates, get_workflow, create_dispatch, print.
  apply emits_try_except; [|intro; apply emits_emit; reflexivity].
  repeat (apply emits_bind; [|intro]);
    try (apply emits_emit; reflexivity); apply emits_fault.
Qed.

(** *** Traces *)

Lemma since_app st st' evs : trace st' = trace st ++ evs -> since st st' = evs.
Proof.
  unfold since. intros ->. induction (trace st) as [|ev t IH]; simpl; auto.
Qed.

Lemma filter_none {A} (P Q : A -> bool) (xs : list A) :
  (forall x, P x = true -> Q x = false) ->
  forallb P xs = true -> List.filter Q xs = [].
Proof.
  intros HPQ. induction xs as [|x xs IH]; simpl; intros Hall; [reflexivity|].
  apply andb_prop in Hall as [Hx Hxs]. rewrite (HPQ x Hx). auto.
Qed.

Lemma emits_run {A} P (m : M St A) st :
  emits P m ->
  exists evs, trace (snd (m st)) = trace st ++ evs /\ forallb P evs = true.
Proof. intros Hm. apply (Hm st). Qed.

Lemma pipeline_split self E st :
  pipeline self E st = (before_deploy self E >> deploy_updates E) st.
Proof.
  unfold pipeline, before_deploy, bind.
  destruct (scrape_all_sources self E st) as [[c|e] s1]; [|reflexivity].
  destruct (analyze_content E c s1) as [[i|e] s2]; [|reflexivity].
  destruct (generate_course_updates E i s2) as [[n|e] s3]; reflexivity.
Qed.

Lemma total_before_deploy self E : total (before_deploy self E).
Proof.
  unfold before_deploy.
  apply total_bind; [apply total_scrape_all_sources | intro].
  apply total_bind; [apply total_analyze_content | intro].
  apply total_bind; [apply total_generate_course_updates | intro].
  apply total_update_course_repo.
Qed.

(** The deployment step, event by event. *)
Lemma deploy_updates_trace E st :
  trace (snd (deploy_updates E st)) =
  trace st ++
  match github_fault E (GetWorkflow "deploy.yml") with
  | Some e =>
      [Called (GetWorkflow "deploy.yml");
       Printed (LineErr "Error triggering deployment: " e)]
  | None =>
      match github_fault E (CreateDispatch "main") with
      | Some e =>
          [Called (GetWorkflow "deploy.yml"); Called (CreateDispatch "main");
           Printed (LineErr "Error triggering deployment: " e)]
      | None =>
          [Called (GetWorkflow "deploy.yml"); Called (CreateDispatch "main");
           Printed (Line "Deployment triggered")]
      end
  end.
Proof.
  unfold deploy_updates, get_workflow, create_dispatch, fault, print, emit,
    try_except, bind, raise, ret.
  simpl. destruct (github_fault E (GetWorkflow "deploy.yml")); simpl.
  - rewrite <- app_assoc. reflexivity.
  - destruct (github_fault E (CreateDispatch "main")); simpl;
      rewrite <- !app_assoc; reflexivity.
Qed.

Lemma emits_pipeline self E :
  emits (fun ev => negb (is_sleep ev)) (pipeline self E).
Proof.
  unfold pipeline.
  apply emits_bind; [|intro; apply emits_bind; [|intro; apply emits_bind; [|intro;
    apply emits_bind; [|intro]]]].
  - eapply emits_weaken; [|apply emits_scrape_all_sources]. intros [[]| |]; auto.
  - eapply emits_weaken; [|apply emits_analyze_content]. intros [[]| |]; auto.
  - eapply emits_weaken; [|apply emits_generate_course_updates]. intros [[]| |]; auto.
  - eapply emits_weaken; [|apply emits_update_course_repo]. intros [[]| |]; auto.
  - eapply emits_weaken; [|apply emits_deploy_updates]. intros [[]| |]; auto.
Qed.

(** *** The scheduler *)

Lemma iteration_run E steps st :
  iteration E steps st =
  match steps (started E st) with
  | (Ok _, st1) =>
      (Ok tt, set_trace (trace st1 ++
                [Printed (Line "Cycle completed. Sleeping for 6 hours...");
                 Slept 21600]) st1)
  | (Raise e, st1) =>
      (Ok tt, set_trace (trace st1 ++
                [Printed (LineErr "Error in autonomous cycle: " e);
                 Slept 1800]) st1)
  end.
Proof.
  unfold iteration, try_except, bind, now, print, sleep, emit. simpl.
  change (set_trace _ (set_ticks _ st)) with (started E st).
  destruct (steps (started E st)) as [[[]|e] st1]; simpl;
    unfold set_trace; simpl; rewrite <- app_assoc; reflexivity.
Qed.

Lemma while_true_total {S} (body : nat -> M S unit) :
  (forall k, total (body k)) ->
  forall fuel k s, fst (while_true fuel body k s) = Looping.
Proof.
  intros Hb. induction fuel as [|fuel IH]; intros k s; simpl; [reflexivity|].
  destruct (total_run (body k) s (Hb k)) as (a & s' & ->). apply IH.
Qed.

Lemma while_true_last {S} (body : nat -> M S unit) :
  (forall k, total (body k)) ->
  forall fuel k s,
    snd (while_true (Datatypes.S fuel) body k s) =
    snd (body (k + fuel)%nat (snd (while_true fuel body k s))).
Proof.
  intros Hb. induction fuel as [|fuel IH]; intros k s.
  - simpl. rewrite Nat.add_0_r.
    destruct (total_run (body k) s (Hb k)) as (a & s' & ->). reflexivity.
  - change (while_true (Datatypes.S (Datatypes.S fuel)) body k s)
      with (match body k s with
            | (Ok _, s') => while_true (Datatypes.S fuel) body (Datatypes.S k) s'
            | (Raise e, s') => (Escaped e, s')
            end).
    change (while_true (Datatypes.S fuel) body k s)
      with (match body k s with
            | (Ok _, s') => while_true fuel body (Datatypes.S k) s'
            | (Raise e, s') => (Escaped e, s')
            end).
    destruct (total_run (body k) s (Hb k)) as (a & s' & ->).
    rewrite IH. replace (Datatypes.S k + fuel)%nat with (k + Datatypes.S fuel)%nat by lia.
    reflexivity.
Qed.

(** *** Computations that only append to their list *)













Lemma for_in_app {S A} (l1 l2 : list A) (body : A -> M S unit) s :
  for_in (l1 ++ l2) body s = (for_in l1 body >> for_in l2 body) s.
Proof.
  revert s. induction l1 as [|x l1 IH]; intros s; simpl.
  - reflexivity.
  - unfold bind. destruct (body x s) as [[[]|e] s1]; [|reflexivity].
    rewrite IH. reflexivity.
Qed.


(* ===================================================================== *)
(** * The cycle *)

(** C6. The scheduler loop never stops: for any steps, however many passes
    are run the loop is still looping; pass [n] runs in the state pass [n-1]
    left; a pass whose steps return prints the completion line and sleeps
    21600 seconds (6 hours), a pass whose steps raise [e] prints the error
    line for [e] and sleeps 1800 seconds (30 minutes), and in both cases the
    pass itself returns, so the loop goes on.  The agent's own loop
    [run_autonomous_cycle] is that scheduler run on its pipeline: before any
    pass it has done nothing; after [n+1] passes it is still looping, in the
    state that one more such pass over the five steps of the pipeline leaves
    after its first [n] passes; and each of its passes runs the pipeline from
    the started state and ends with the completion line and the sleep of 6
    hours. *)
Theorem scheduler_never_stops (envs : nat -> Env) (steps : nat -> M St unit) :
  (forall fuel st, fst (scheduler envs steps fuel st) = Looping) /\
  (forall n st,
     snd (scheduler envs steps (S n) st) =
     snd (iteration (envs n) (steps n) (snd (scheduler envs steps n st)))) /\
  (forall E body st,
     iteration E body st =
     match body (started E st) with
     | (Ok _, st1) =>
         (Ok tt, set_trace (trace st1 ++
                   [Printed (Line "Cycle completed. Sleeping for 6 hours...");
                    Slept (6 * 3600)]) st1)
     | (Raise e, st1) =>
         (Ok tt, set_trace (trace st1 ++
                   [Printed (LineErr "Error in autonomous cycle: " e);
                    Slept 1800]) st1)
     end) /\
  (forall self fuel st, fst (run_autonomous_cycle self envs fuel st) = Looping) /\
  (forall self fuel st,
     run_autonomous_cycle self envs fuel st =
     scheduler envs (fun k => pipeline self (envs k)) fuel st) /\
  (forall self st, run_autonomous_cycle self envs 0 st = (Looping, st)) /\
  (forall self n st,
     run_autonomous_cycle self envs (S n) st =
     (Looping,
      snd (iteration (envs n) (pipeline self (envs n))
             (snd (run_autonomous_cycle self envs n st))))) /\
  (forall self n st,
     exists st1,
       pipeline self (envs n)
         (started (envs n) (snd (run_autonomous_cycle self envs n st))) =
         (Ok tt, st1) /\
       snd (run_autonomous_cycle self envs (S n) st) =
         set_trace (trace st1 ++
           [Printed (Line "Cycle completed. Sleeping for 6 hours...");
            Slept (6 * 3600)]) st1).
Proof.
  assert (Htot : forall (f : nat -> M St unit) k,
             total ((fun k => iteration (envs k) (f k)) k))
    by (intros; apply total_iteration).
  assert (Hlast : forall self n st,
             snd (run_autonomous_cycle self envs (S n) st) =
             snd (iteration (envs n) (pipeline self (envs n))
                    (snd (run_autonomous_cycle self envs n st)))).
  { intros. unfold run_autonomous_cycle, scheduler.
    rewrite while_true_last by apply Htot. reflexivity. }
  split; [|split; [|split; [|split; [|split; [|split; [|split]]]]]].
  - intros. apply while_true_total, Htot.
  - intros. unfold scheduler. rewrite while_true_last by apply Htot. reflexivity.
  - intros. apply iteration_run.
  - intros. apply while_true_total, Htot.
  - reflexivity.
  - reflexivity.
  - intros. rewrite <- Hlast.
    rewrite (surjective_pairing (run_autonomous_cycle self envs (S n) st)).
    f_equal. apply while_true_total, Htot.
  - intros self n st. rewrite Hlast.
    destruct (total_run _
                (started (envs n) (snd (run_autonomous_cycle self envs n st)))
                (total_pipeline self (envs n))) as ([] & st1 & Hrun).
    exists st1. split; [exact Hrun|].
    rewrite iteration_run, Hrun. reflexivity.
Qed.

(** C1, as the code has it.  With an empty set of insights the generation
    step still calls the model, once, with the empty insights in the prompt;
    it returns what the answer parses to, and the empty result only when the
    call or the parse fails.  The pipeline returns in every world. *)
Theorem generation_runs_on_empty_insights (E : Env) (st : St) :
  let req := {| model := "gpt-4"; messages := GenerationPrompt (JObj []);
                temperature := 4 # 10; max_tokens := Some 4000 |} in
  fst (generate_course_updates E (JObj []) st) =
    Ok (match chat_create E req with
        | Ok text => match json_loads E text with
                     | Ok updates => updates
                     | Raise _ => JObj []
                     end
        | Raise _ => JObj []
        end) /\
  List.filter is_chat (since st (snd (generate_course_updates E (JObj []) st)))
    = [Called (ChatCreate req)] /\
  (forall self st0, exists st1, pipeline self E st0 = (Ok tt, st1)).
Proof.
  intros req. repeat split.
  - unfold generate_course_updates, chat, try_except, bind, of_result, emit.
    simpl. fold req. destruct (chat_create E req) as [text|e]; simpl; auto.
    destruct (json_loads E text); reflexivity.
  - assert (Ht : exists m,
        trace (snd (generate_course_updates E (JObj []) st)) =
        trace st ++ Called (ChatCreate req) :: List.map Printed m).
    { unfold generate_course_updates, chat, try_except, bind, of_result, emit,
        print, ret. simpl. fold req.
      destruct (chat_create E req) as [text|e]; simpl.
      - destruct (json_loads E text); simpl.
        + exists []. reflexivity.
        + eexists [_]. rewrite <- app_assoc. reflexivity.
      - eexists [_]. rewrite <- app_assoc. reflexivity. }
    destruct Ht as [m Ht]. rewrite (since_app _ _ _ Ht). simpl. f_equal.
    clear Ht. induction m; simpl; auto.
  - intros self st0. destruct (total_run _ st0 (total_pipeline self E)) as ([] & st1 & ->).
    eauto.
Qed.

(** C1 as stated fails: when the analysis call fails and the generation call
    answers, the model is called for generation with the empty insights. *)
Lemma generation_called_after_failed_analysis :
  ~ empty_insights_skip_generation init analysis_down book.
Proof.
  unfold empty_insights_skip_generation. intros H.
  edestruct H as [Hres _]; [run_to_value | run_to_value |].
  vm_compute in Hres. discriminate Hres.
Qed.

(** C4, as the code has it.  Every cycle ends with the deployment step,
    after the Publisher and whatever the Publisher did.  The four steps
    before it run to the end, the last of them being the Publisher
    ([update_course_repo], which hands nothing back); the pipeline is then
    the deployment step run in the state the Publisher left.  No deployment
    call is placed up to that state, and the events after it are exactly
    those of the deployment step: the workflow [deploy.yml] is looked up
    once and, unless that lookup failed, dispatched on [main] once.  So the
    deployment calls of the whole cycle are that lookup and that dispatch,
    and the pipeline returns. *)
Theorem deploy_runs_every_cycle (self : ContentAgent) (E : Env) (st : St) :
  fst (pipeline self E st) = Ok tt /\
  List.filter is_deploy (since st (snd (pipeline self E st))) =
    match github_fault E (GetWorkflow "deploy.yml") with
    | Some _ => [Called (GetWorkflow "deploy.yml")]
    | None => [Called (GetWorkflow "deploy.yml"); Called (CreateDispatch "main")]
    end /\
  exists content_data st1 insights st2 new_content st3 st4 evs,
    scrape_all_sources self E st = (Ok content_data, st1) /\
    analyze_content E content_data st1 = (Ok insights, st2) /\
    generate_course_updates E insights st2 = (Ok new_content, st3) /\
    update_course_repo E new_content st3 = (Ok tt, st4) /\
    pipeline self E st = deploy_updates E st4 /\
    trace st4 = trace st ++ evs /\
    List.filter is_deploy evs = [] /\
    trace (snd (pipeline self E st)) =
      trace st ++ evs ++
      match github_fault E (GetWorkflow "deploy.yml") with
      | Some e =>
          [Called (GetWorkflow "deploy.yml");
           Printed (LineErr "Error triggering deployment: " e)]
      | None =>
          match github_fault E (CreateDispatch "main") with
          | Some e =>
              [Called (GetWorkflow "deploy.yml"); Called (CreateDispatch "main");
               Printed (LineErr "Error triggering deployment: " e)]
          | None =>
              [Called (GetWorkflow "deploy.yml"); Called (CreateDispatch "main");
               Printed (Line "Deployment triggered")]
          end
      end.
Proof.
  assert (Hnone : forall evs, forallb pre_deploy evs = true ->
                              List.filter is_deploy evs = []).
  { intros evs. apply filter_none. intros ev. unfold pre_deploy.
    destruct (is_deploy ev); simpl; congruence. }
  destruct (emits_run _ _ st (emits_before_deploy self E)) as (evs & Hevs & Hall).
  fold (before_deploy self E) in Hevs.
  destruct (total_run _ st (total_scrape_all_sources self E))
    as (content_data & st1 & H1).
  destruct (total_run _ st1 (total_analyze_content E content_data))
    as (insights & st2 & H2).
  destruct (total_run _ st2 (total_generate_course_updates E insights))
    as (new_content & st3 & H3).
  destruct (total_run _ st3 (total_update_course_repo E new_content))
    as ([] & st4 & H4).
  assert (Hb : before_deploy self E st = (Ok tt, st4)).
  { unfold before_deploy, bind. rewrite H1, H2, H3. exact H4. }
  assert (Hp : pipeline self E st = deploy_updates E st4).
  { rewrite pipeline_split. unfold bind. rewrite Hb. reflexivity. }
  rewrite Hb in Hevs. simpl in Hevs.
  pose proof (deploy_updates_trace E st4) as Hd.
  rewrite Hevs, <- app_assoc in Hd.
  split; [|split].
  - destruct (total_run _ st (total_pipeline self E)) as ([] & st' & ->).
    reflexivity.
  - rewrite Hp, (since_app _ _ _ Hd), List.filter_app, (Hnone evs Hall).
    destruct (github_fault E (GetWorkflow "deploy.yml")); [reflexivity|].
    destruct (github_fault E (CreateDispatch "main")); reflexivity.
  - exists content_data, st1, insights, st2, new_content, st3, st4, evs.
    rewrite Hp. auto 10.
Qed.

(** C4 as stated fails: with every source and the model unreachable the
    publisher writes nothing, and the deployment is dispatched all the
    same. *)
Lemma deploy_without_change : ~ deploy_iff_changed init offline book.
Proof.
  unfold deploy_iff_changed. intros [H _].
  assert (Hd : existsb is_deploy (since book (snd (pipeline init offline book))) = true)
    by (vm_compute; reflexivity).
  specialize (H Hd). vm_compute in H. lia.
Qed.

Lemma chapter_is_not_summary timestamp : chapter_path timestamp <> summary_path.
Proof. unfold chapter_path, summary_path. cbv [String.append]. discriminate. Qed.

Lemma since_refl st : since st st = [].
Proof. apply since_app. rewrite app_nil_r. reflexivity. Qed.

(** Case analysis on the innermost scrutinee of the goal. *)
Ltac break_match :=
  match goal with
  | |- context [match ?x with _ => _ end] =>
      lazymatch x with
      | context [match _ with _ => _ end] => fail
      | _ => destruct x eqn:?
      end
  end.

(** The publisher places no call twice. *)
Lemma publisher_calls_once E new_content st :
  List.NoDup (since st (snd (update_course_repo E new_content st))).
Proof.
  unfold update_course_repo.
  destruct (negb (py_truthy new_content)).
  { cbn. rewrite since_refl. constructor. }
  unfold create_or_update, update_summary_file, get_contents, update_file,
    create_file, assert_str, fault, print.
  unfold try_except, bind, of_result, now, emit, ret, raise, set_trace,
    set_ticks, write_file.
  cbn [fst snd tree trace ticks next_sha].
  destruct (py_contains "new_chapter" new_content) as [[|]|e0];
    cbn [fst snd tree trace ticks next_sha].
  all: repeat (break_match;
               cbn [fst snd tree trace ticks next_sha sha decoded_content]).
  all: erewrite since_app by (cbn [trace]; rewrite <- ?app_assoc; reflexivity).
  all: cbn [app].
  all: repeat (constructor;
               [cbn [In]; intuition (try discriminate);
                match goal with
                | H : Called (GetContents _) = Called (GetContents _) |- _ =>
                    injection H as H;
                    first [ exact (chapter_is_not_summary _ H)
                          | symmetry in H; exact (chapter_is_not_summary _ H) ]
                end |]).
  all: constructor.
Qed.

(** C2, as the code has it.  The publisher returns in every world, also when
    the content tree refuses its writes: no failure of a write reaches the
    scheduler.  It places no call twice: it does not retry.  A pass over the
    pipeline therefore returns and its only sleep is the long one, 21600
    seconds. *)
Theorem publish_failure_is_contained (self : ContentAgent) (E : Env) :
  (forall new_content st, fst (update_course_repo E new_content st) = Ok tt) /\
  (forall new_content st,
      List.NoDup (since st (snd (update_course_repo E new_content st)))) /\
  (forall st, fst (iteration E (pipeline self E) st) = Ok tt /\
              List.filter is_sleep
                (since st (snd (iteration E (pipeline self E) st)))
              = [Slept 21600]).
Proof.
  split; [|split].
  - intros new_content st.
    destruct (total_run _ st (total_update_course_repo E new_content))
      as ([] & st1 & ->). reflexivity.
  - intros. apply publisher_calls_once.
  - intros st. rewrite iteration_run.
    destruct (emits_run _ _ (started E st) (emits_pipeline self E))
      as (evs & Hevs & Hall).
    destruct (total_run _ (started E st) (total_pipeline self E)) as ([] & st1 & Hrun).
    rewrite Hrun in *. simpl in Hevs. split; [reflexivity|].
    simpl. rewrite (since_app st _
      (Printed (LineAt "Starting content cycle at " (clock E (ticks st))) :: evs ++
       [Printed (Line "Cycle completed. Sleeping for 6 hours..."); Slept 21600])).
    + simpl. rewrite List.filter_app.
      rewrite (filter_none (fun ev => negb (is_sleep ev)) is_sleep evs);
        [reflexivity | | assumption].
      intros ev. destruct (is_sleep ev); simpl; congruence.
    + rewrite Hevs. simpl. rewrite <- !app_assoc. reflexivity.
Qed.

(** C2 as stated fails: with every write refused by the content tree, the
    pass still ends with the long sleep. *)
Lemma refused_write_sleeps_long :
  ~ refused_write_backs_off init writes_refused book.
Proof.
  unfold refused_write_backs_off. intros H.
  assert (Hs : List.filter is_sleep
                 (since book (snd (iteration writes_refused
                                     (pipeline init writes_refused) book)))
               = [Slept 21600]) by (vm_compute; reflexivity).
  rewrite H in Hs; [discriminate Hs|].
  exists (CreateFile "book/src/auto-generated/chapter_20260105.md"
            "Auto-generate: New chapter 20260105" (JStr "# Lesson")).
  split; [|split].
  - vm_compute. tauto.
  - reflexivity.
  - vm_compute. discriminate.
Qed.

(* ===================================================================== *)
(** * The publisher *)

Lemma create_file_trace E path msg body st :
  trace (snd (create_file E path msg body st)) =
  trace st ++ [Called (CreateFile path msg body)].
Proof.
  unfold create_file, assert_str, fault, emit, bind, raise, ret. simpl.
  destruct body; simpl; try reflexivity.
  destruct (github_fault E _); simpl; [reflexivity|].
  destruct (tree st !! path); reflexivity.
Qed.

(** C10. Whatever exception the read of the chapter or its versioned update
    raises (a missing file, a conflict, a network error), the publisher goes
    on to [create_file] on the same path, in the state the failed attempt
    left; what the chapter step returns or raises is what that creation
    returns or raises, so the exception of the read or of the update is not
    seen again. *)
Theorem create_follows_any_failure
    (E : Env) (filename timestamp : string) (body : json) (st st1 : St)
    (e : exn) :
  get_contents E filename st = (Raise e, st1) \/
  (exists file st0,
      get_contents E filename st = (Ok file, st0) /\
      update_file E filename ("Auto-update: New chapter " +:+ timestamp)
        body (sha file) st0 = (Raise e, st1)) ->
  create_or_update E filename timestamp body st =
    create_file E filename ("Auto-generate: New chapter " +:+ timestamp) body st1 /\
  exists evs,
    since st (snd (create_or_update E filename timestamp body st)) =
    evs ++ [Called (CreateFile filename
                      ("Auto-generate: New chapter " +:+ timestamp) body)].
Proof.
  intros Hfail.
  assert (Hrun : create_or_update E filename timestamp body st =
                 create_file E filename
                   ("Auto-generate: New chapter " +:+ timestamp) body st1).
  { unfold create_or_update, try_except, bind.
    destruct Hfail as [-> | (file & st0 & -> & ->)]; reflexivity. }
  split; [exact Hrun|].
  assert (Hpre : exists evs, trace st1 = trace st ++ evs).
  { destruct Hfail as [Hg | (file & st0 & Hg & Hu)].
    - destruct (emits_run _ _ st (emits_get_contents E filename)) as (evs & Hevs & _).
      rewrite Hg in Hevs. eauto.
    - destruct (emits_run _ _ st (emits_get_contents E filename)) as (evs & Hevs & _).
      destruct (emits_run _ _ st0 (emits_update_file E filename
        ("Auto-update: New chapter " +:+ timestamp) body (sha file)))
        as (evs' & Hevs' & _).
      rewrite Hg in Hevs. rewrite Hu in Hevs'. simpl in *.
      exists (evs ++ evs'). rewrite Hevs', Hevs, app_assoc. reflexivity. }
  destruct Hpre as [evs Hpre]. exists evs. apply since_app.
  rewrite Hrun, create_file_trace, Hpre, app_assoc. reflexivity.
Qed.

(** A conflict on the update of an existing chapter: the creation is
    attempted, and it is the refusal of the creation (422) that the
    publisher sees, not the conflict (409). *)
Lemma create_follows_any_failure_witness :
  create_or_update updates_conflict (chapter_path "20260105") "20260105"
    (JStr "# Lesson 2") book_with_chapter
  = (Raise (Exception "GithubException" "422"),
     set_trace
       [Called (GetContents (chapter_path "20260105"));
        Called (UpdateFile (chapter_path "20260105")
                  "Auto-update: New chapter 20260105" (JStr "# Lesson 2") 1);
        Called (CreateFile (chapter_path "20260105")
                  "Auto-generate: New chapter 20260105" (JStr "# Lesson 2"))]
       book_with_chapter).
Proof.
  destruct (create_follows_any_failure updates_conflict
              (chapter_path "20260105") "20260105" (JStr "# Lesson 2")
              book_with_chapter
              (set_trace
                 [Called (GetContents (chapter_path "20260105"));
                  Called (UpdateFile (chapter_path "20260105")
                            "Auto-update: New chapter 20260105"
                            (JStr "# Lesson 2") 1)]
                 book_with_chapter)
              (Exception "GithubException" "409")) as [Hrun _].
  - right. eexists _, _. split; vm_compute; reflexivity.
  - rewrite Hrun. vm_compute. reflexivity.
Defined.

(** *** Text *)

Lemma append_empty_r s : s +:+ EmptyString = s.
Proof.
  induction s as [|a s IH]; [reflexivity|].
  change (String a s +:+ EmptyString) with (String a (s +:+ EmptyString)). rewrite IH. reflexivity.
Qed.

Lemma strip_prefix_app p r : strip_prefix p (p +:+ r) = Some r.
Proof.
  induction p as [|a p IH]; simpl; [destruct r; reflexivity|].
  rewrite Ascii.eqb_refl. exact IH.
Qed.

Lemma strip_prefix_app_l p s r y :
  strip_prefix p s = Some r -> strip_prefix p (s +:+ y) = Some (r +:+ y).
Proof.
  revert s. induction p as [|a p IH]; intros s; simpl.
  - destruct s; intros [= <-]; destruct y; reflexivity.
  - destruct s as [|b s]; simpl; [discriminate|].
    destruct (Ascii.eqb a b); [apply IH | discriminate].
Qed.

Lemma str_in_unfold sub s :
  str_in sub s =
  match strip_prefix sub s with
  | Some _ => true
  | None => match s with
            | EmptyString => false
            | String _ s' => str_in sub s'
            end
  end.
Proof. destruct s; reflexivity. Qed.

Lemma str_in_app_l sub s y : str_in sub s = true -> str_in sub (s +:+ y) = true.
Proof.
  induction s as [|c s IH]; intros Hin;
    rewrite str_in_unfold in Hin; rewrite str_in_unfold.
  - destruct (strip_prefix sub EmptyString) eqn:Hp; [|discriminate].
    rewrite (strip_prefix_app_l _ _ _ y Hp). reflexivity.
  - destruct (strip_prefix sub (String c s)) eqn:Hp.
    + rewrite (strip_prefix_app_l _ _ _ y Hp). reflexivity.
    + change (String c s +:+ y) with (String c (s +:+ y)).
      destruct (strip_prefix sub (String c (s +:+ y))); auto.
Qed.

Lemma str_in_app_r sub x s : str_in sub s = true -> str_in sub (x +:+ s) = true.
Proof.
  intros Hin. induction x as [|c x IH]; [assumption|].
  change (String c x +:+ s) with (String c (x +:+ s)).
  rewrite str_in_unfold. destruct (strip_prefix sub (String c (x +:+ s))); auto.
Qed.

Lemma str_in_here sub r : str_in sub (sub +:+ r) = true.
Proof. rewrite str_in_unfold, strip_prefix_app. reflexivity. Qed.

Lemma str_in_with_heading c x : str_in summary_heading (with_heading c +:+ x) = true.
Proof.
  apply str_in_app_l. unfold with_heading.
  destruct (str_in summary_heading c) eqn:Hc; simpl; [assumption|].
  apply str_in_app_r. apply (str_in_app_r _ nl). apply str_in_here.
Qed.

Lemma occurrences_unfold sub s :
  occurrences sub s =
  ((match strip_prefix sub s with Some _ => 1 | None => 0 end) +
   match s with
   | EmptyString => 0
   | String _ s' => occurrences sub s'
   end)%nat.
Proof. destruct s; reflexivity. Qed.

Lemma occurrences_app_r sub x s :
  (occurrences sub s <= occurrences sub (x +:+ s))%nat.
Proof.
  induction x as [|c x IH]; [reflexivity|].
  change (String c x +:+ s) with (String c (x +:+ s)).
  rewrite (occurrences_unfold sub (String c _)). lia.
Qed.

Lemma occurrences_here sub r : (1 <= occurrences sub (sub +:+ r))%nat.
Proof. rewrite occurrences_unfold, strip_prefix_app. lia. Qed.

Lemma occurrences_twice_cons a rest c :
  (2 <= occurrences (String a rest) (c +:+ String a rest +:+ String a rest))%nat.
Proof.
  etransitivity; [|apply occurrences_app_r].
  rewrite occurrences_unfold, strip_prefix_app.
  change (String a rest +:+ String a rest)
    with (String a (rest +:+ String a rest)).
  cbv beta iota.
  pose proof (occurrences_app_r (String a rest) rest (String a rest)) as Hr.
  pose proof (occurrences_here (String a rest) EmptyString) as Hh.
  rewrite append_empty_r in Hh. lia.
Qed.

(** The line of a chapter, written twice, is found twice. *)
Lemma occurrences_twice c timestamp :
  (2 <= occurrences (summary_line timestamp)
          (c +:+ summary_line timestamp +:+ summary_line timestamp))%nat.
Proof. apply occurrences_twice_cons. Qed.

(** *** The content tree answering without faults *)

Lemma get_contents_found E path f st :
  github_fault E (GetContents path) = None ->
  tree st !! path = Some f ->
  get_contents E path st =
  (Ok f, set_trace (trace st ++ [Called (GetContents path)]) st).
Proof.
  intros Hf Ht. unfold get_contents, fault, emit, bind, ret, set_trace.
  rewrite Hf. cbn [tree fst snd]. rewrite Ht. reflexivity.
Qed.

Lemma get_contents_missing E path st :
  github_fault E (GetContents path) = None ->
  tree st !! path = None ->
  get_contents E path st =
  (Raise (Exception "UnknownObjectException" "404"),
   set_trace (trace st ++ [Called (GetContents path)]) st).
Proof.
  intros Hf Ht. unfold get_contents, fault, emit, bind, ret, set_trace.
  rewrite Hf. cbn [tree fst snd]. rewrite Ht. reflexivity.
Qed.

Lemma create_file_fresh E path msg body st :
  github_fault E (CreateFile path msg (JStr body)) = None ->
  tree st !! path = None ->
  create_file E path msg (JStr body) st =
  (Ok tt, write_file path body
            (set_trace (trace st ++ [Called (CreateFile path msg (JStr body))]) st)).
Proof.
  intros Hf Ht. unfold create_file, assert_str, fault, emit, bind, ret, set_trace.
  rewrite Hf. cbn [tree fst snd]. rewrite Ht. reflexivity.
Qed.

Lemma update_file_current E path msg body f st :
  github_fault E (UpdateFile path msg (JStr body) (sha f)) = None ->
  tree st !! path = Some f ->
  update_file E path msg (JStr body) (sha f) st =
  (Ok tt, write_file path body
            (set_trace (trace st ++
               [Called (UpdateFile path msg (JStr body) (sha f))]) st)).
Proof.
  intros Hf Ht. unfold update_file, assert_str, fault, emit, bind, ret, set_trace.
  rewrite Hf. cbn [tree fst snd]. rewrite Ht, Nat.eqb_refl. reflexivity.
Qed.

Lemma update_summary_file_run E timestamp fs st :
  (forall c, github_fault E c = None) ->
  tree st !! summary_path = Some fs ->
  update_summary_file E timestamp st =
  (Ok tt,
   write_file summary_path (with_chapter_line (decoded_content fs) timestamp)
     (set_trace (trace st ++
        [Called (GetContents summary_path);
         Called (UpdateFile summary_path
                   ("Auto-update: Add chapter " +:+ timestamp +:+ " to summary")
                   (JStr (with_chapter_line (decoded_content fs) timestamp))
                   (sha fs))]) st)).
Proof.
  intros Hf Hs. unfold update_summary_file, try_except, bind.
  rewrite (get_contents_found _ _ fs) by auto.
  fold (with_heading (decoded_content fs)).
  fold (with_chapter_line (decoded_content fs) timestamp).
  rewrite (update_file_current _ _ _ _ fs) by auto.
  unfold set_trace, write_file. simpl. rewrite <- app_assoc. reflexivity.
Qed.

(** A first publication of the day: the chapter is created. *)
Lemma publish_new E kv body fs st :
  let timestamp := strftime_Ymd E (clock E (ticks st)) in
  (forall c, github_fault E c = None) ->
  assoc "new_chapter" kv = Some (JStr body) ->
  tree st !! chapter_path timestamp = None ->
  tree st !! summary_path = Some fs ->
  update_course_repo E (JObj kv) st =
  (Ok tt, published timestamp body
            (CreateFile (chapter_path timestamp)
               ("Auto-generate: New chapter " +:+ timestamp) (JStr body)) fs st).
Proof.
  intros timestamp Hf Hkv Hch Hs.
  unfold update_course_repo. destruct kv as [|kv0 kv]; [discriminate|].
  cbn [py_truthy negb].
  unfold try_except at 1. unfold bind at 1. unfold of_result, py_contains at 1.
  rewrite Hkv. unfold bind at 1. unfold bind at 1. unfold now at 1.
  cbn [fst snd]. unfold bind at 1. unfold py_getitem. rewrite Hkv.
  unfold bind at 1. unfold create_or_update, try_except at 1. unfold bind at 1.
  fold timestamp.
  rewrite get_contents_missing by auto.
  rewrite create_file_fresh; [|auto|exact Hch].
  unfold ret at 1. unfold bind at 1. unfold py_contains. rewrite Hkv.
  unfold bind at 1.
  rewrite (update_summary_file_run _ _ fs); [|auto|].
  - unfold print, emit, published, write_file, set_trace, set_ticks.
    cbn [tree next_sha ticks trace fst snd]. rewrite <- !app_assoc. reflexivity.
  - simpl. rewrite lookup_insert_ne by apply chapter_is_not_summary. exact Hs.
Qed.

(** A later publication of the same day: the chapter is updated. *)
Lemma publish_again E kv body fc fs st :
  let timestamp := strftime_Ymd E (clock E (ticks st)) in
  (forall c, github_fault E c = None) ->
  assoc "new_chapter" kv = Some (JStr body) ->
  tree st !! chapter_path timestamp = Some fc ->
  tree st !! summary_path = Some fs ->
  update_course_repo E (JObj kv) st =
  (Ok tt, published timestamp body
            (UpdateFile (chapter_path timestamp)
               ("Auto-update: New chapter " +:+ timestamp) (JStr body) (sha fc))
            fs st).
Proof.
  intros timestamp Hf Hkv Hch Hs.
  unfold update_course_repo. destruct kv as [|kv0 kv]; [discriminate|].
  cbn [py_truthy negb].
  unfold try_except at 1. unfold bind at 1. unfold of_result, py_contains at 1.
  rewrite Hkv. unfold bind at 1. unfold bind at 1. unfold now at 1.
  cbn [fst snd]. unfold bind at 1. unfold py_getitem. rewrite Hkv.
  unfold bind at 1. unfold create_or_update, try_except at 1. unfold bind at 1.
  fold timestamp.
  rewrite (get_contents_found _ _ fc) by auto.
  rewrite (update_file_current _ _ _ _ fc); [|auto|exact Hch].
  unfold ret at 1. unfold bind at 1. unfold py_contains. rewrite Hkv.
  unfold bind at 1.
  rewrite (update_summary_file_run _ _ fs); [|auto|].
  - unfold print, emit, published, write_file, set_trace, set_ticks.
    cbn [tree next_sha ticks trace fst snd]. rewrite <- !app_assoc. reflexivity.
  - simpl. rewrite lookup_insert_ne by apply chapter_is_not_summary. exact Hs.
Qed.

Lemma append_assoc a b c : (a +:+ b) +:+ c = a +:+ b +:+ c.
Proof.
  induction a as [|x a IH]; [reflexivity|].
  change ((String x a +:+ b) +:+ c) with (String x ((a +:+ b) +:+ c)).
  rewrite IH. reflexivity.
Qed.

Lemma with_chapter_line_twice c timestamp :
  with_chapter_line (with_chapter_line c timestamp) timestamp =
  with_heading c +:+ summary_line timestamp +:+ summary_line timestamp.
Proof.
  unfold with_chapter_line at 1. unfold with_heading at 1.
  unfold with_chapter_line. rewrite str_in_with_heading. simpl negb.
  cbv iota. apply append_assoc.
Qed.

Lemma published_trace timestamp body chapter_call fs st :
  trace (published timestamp body chapter_call fs st) =
  trace st ++
  [Called (GetContents (chapter_path timestamp)); Called chapter_call;
   Called (GetContents summary_path);
   Called (UpdateFile summary_path
             ("Auto-update: Add chapter " +:+ timestamp +:+ " to summary")
             (JStr (with_chapter_line (decoded_content fs) timestamp)) (sha fs));
   Printed (Line "Repository updated with new content")].
Proof.
  unfold published, write_file, set_trace, set_ticks.
  cbn [tree next_sha ticks trace]. rewrite <- !app_assoc. reflexivity.
Qed.

Lemma published_tree timestamp body chapter_call fs st :
  tree (published timestamp body chapter_call fs st) =
  <[summary_path :=
      {| decoded_content := with_chapter_line (decoded_content fs) timestamp;
         sha := S (next_sha st) |}]>
    (<[chapter_path timestamp :=
         {| decoded_content := body; sha := next_sha st |}]> (tree st)).
Proof. reflexivity. Qed.

(** C3 on the code.  Two fault-free publications of the same chapter under
    the same date, on a tree that has its table of contents and not yet the
    chapter: the chapter path sees one creation and then one update, with
    the revision the creation made; the table of contents is rewritten both
    times with one more line for the chapter, so after the second
    publication it holds the line twice. *)
Theorem republish_duplicates_summary_line
    (E1 E2 : Env) (kv : list (string * json)) (body timestamp : string)
    (fs : content_file) (st : St) :
  (forall c, github_fault E1 c = None) ->
  (forall c, github_fault E2 c = None) ->
  assoc "new_chapter" kv = Some (JStr body) ->
  strftime_Ymd E1 (clock E1 (ticks st)) = timestamp ->
  strftime_Ymd E2 (clock E2 (S (ticks st))) = timestamp ->
  tree st !! chapter_path timestamp = None ->
  tree st !! summary_path = Some fs ->
  let st1 := snd (update_course_repo E1 (JObj kv) st) in
  let st2 := snd (update_course_repo E2 (JObj kv) st1) in
  List.filter (writes_to (chapter_path timestamp)) (since st st2) =
    [Called (CreateFile (chapter_path timestamp)
               ("Auto-generate: New chapter " +:+ timestamp) (JStr body));
     Called (UpdateFile (chapter_path timestamp)
               ("Auto-update: New chapter " +:+ timestamp) (JStr body)
               (next_sha st))] /\
  tree st2 !! summary_path =
    Some {| decoded_content :=
              with_heading (decoded_content fs) +:+ summary_line timestamp
                +:+ summary_line timestamp;
            sha := S (S (S (next_sha st))) |} /\
  (2 <= occurrences (summary_line timestamp)
          (with_heading (decoded_content fs) +:+ summary_line timestamp
             +:+ summary_line timestamp))%nat.
Proof.
  intros Hf1 Hf2 Hkv Hd1 Hd2 Hch Hs st1 st2.
  pose proof (publish_new E1 kv body fs st Hf1 Hkv) as H1.
  cbv zeta in H1. rewrite Hd1 in H1. specialize (H1 Hch Hs).
  assert (Hst1 : st1 = published timestamp body
            (CreateFile (chapter_path timestamp)
               ("Auto-generate: New chapter " +:+ timestamp) (JStr body)) fs st)
    by (unfold st1; rewrite H1; reflexivity).
  assert (Hch1 : tree st1 !! chapter_path timestamp =
                 Some {| decoded_content := body; sha := next_sha st |}).
  { rewrite Hst1, published_tree.
    rewrite lookup_insert_ne by (intros Heq; symmetry in Heq;
                                 exact (chapter_is_not_summary _ Heq)).
    apply lookup_insert_eq. }
  assert (Hs1 : tree st1 !! summary_path =
                Some {| decoded_content :=
                          with_chapter_line (decoded_content fs) timestamp;
                        sha := S (next_sha st) |}).
  { rewrite Hst1, published_tree. apply lookup_insert_eq. }
  assert (Ht1 : ticks st1 = S (ticks st)) by (rewrite Hst1; reflexivity).
  pose proof (publish_again E2 kv body
                {| decoded_content := body; sha := next_sha st |}
                {| decoded_content :=
                     with_chapter_line (decoded_content fs) timestamp;
                   sha := S (next_sha st) |} st1 Hf2 Hkv) as H2.
  cbv zeta in H2. rewrite Ht1, Hd2 in H2. specialize (H2 Hch1 Hs1).
  cbn [sha decoded_content] in H2.
  assert (Hst2 : st2 = published timestamp body
            (UpdateFile (chapter_path timestamp)
               ("Auto-update: New chapter " +:+ timestamp) (JStr body)
               (next_sha st))
            {| decoded_content := with_chapter_line (decoded_content fs) timestamp;
               sha := S (next_sha st) |} st1)
    by (unfold st2; rewrite H2; reflexivity).
  assert (Hne : String.eqb summary_path (chapter_path timestamp) = false).
  { apply String.eqb_neq. intros Heq. symmetry in Heq.
    exact (chapter_is_not_summary _ Heq). }
  split; [|split].
  - erewrite since_app;
      [|rewrite Hst2, published_trace, Hst1, published_trace, <- app_assoc;
        reflexivity].
    cbn [List.filter app writes_to].
    rewrite String.eqb_refl, Hne. reflexivity.
  - rewrite Hst2, published_tree, lookup_insert_eq.
    cbn [decoded_content]. rewrite with_chapter_line_twice.
    rewrite Hst1. reflexivity.
  - apply occurrences_twice.
Qed.

(** Two publications of the chapter of 2026-01-05 in the sample repository. *)
Lemma republish_duplicates_summary_line_witness :
  let new_content := JObj [("new_chapter", JStr "# Lesson")] in
  let st1 := snd (update_course_repo model_up new_content book) in
  let st2 := snd (update_course_repo model_up new_content st1) in
  List.filter (writes_to (chapter_path "20260105")) (since book st2) =
    [Called (CreateFile (chapter_path "20260105")
               "Auto-generate: New chapter 20260105" (JStr "# Lesson"));
     Called (UpdateFile (chapter_path "20260105")
               "Auto-update: New chapter 20260105" (JStr "# Lesson") 1)] /\
  tree st2 !! summary_path =
    Some {| decoded_content :=
              with_heading ("# Summary" +:+ nl) +:+ summary_line "20260105"
                +:+ summary_line "20260105";
            sha := 4 |} /\
  (2 <= occurrences (summary_line "20260105")
          (with_heading ("# Summary" +:+ nl) +:+ summary_line "20260105"
             +:+ summary_line "20260105"))%nat.
Proof.
  apply (republish_duplicates_summary_line model_up model_up
           [("new_chapter", JStr "# Lesson")] "# Lesson" "20260105"
           {| decoded_content := "# Summary" +:+ nl; sha := 0 |} book);
    try (intros; reflexivity).
Defined.

(* ===================================================================== *)
(** * The adapters *)

Lemma youtube_channel_fetch_fails E channel_id e acc st :
  http_get E (youtube_feed_url channel_id) = Raise e ->
  youtube_channel E channel_id (acc, st) =
  (Ok tt,
   (acc, set_trace (trace st ++
           [Called (SessionGet (youtube_feed_url channel_id));
            Printed (LineErr ("Error scraping YouTube channel " +:+ channel_id +:+ ": ") e)])
         st)).
Proof.
  intros Hget.
  unfold youtube_channel, session_get, print.
  unfold try_except, lift, bind, emit, of_result.
  fold (youtube_feed_url channel_id). cbn [fst snd]. rewrite Hget.
  cbn [fst snd]. unfold set_trace. cbn [tree next_sha ticks trace].
  rewrite <- ?app_assoc. reflexivity.
Qed.

Lemma reddit_feed_fetch_fails E subreddit e acc st :
  http_get E (reddit_url subreddit) = Raise e ->
  reddit_feed E subreddit (acc, st) =
  (Ok tt,
   (acc, set_trace (trace st ++
           [Called (SessionGet (reddit_url subreddit));
            Printed (LineErr ("Error scraping Reddit " +:+ subreddit +:+ ": ") e)])
         st)).
Proof.
  intros Hget.
  unfold reddit_feed, session_get, print.
  unfold try_except, lift, bind, emit, of_result.
  fold (reddit_url subreddit). cbn [fst snd]. rewrite Hget.
  cbn [fst snd]. unfold set_trace. cbn [tree next_sha ticks trace].
  rewrite <- ?app_assoc. reflexivity.
Qed.

Lemma is_raise_inv {A} (r : result A) : is_raise r = true -> exists e, r = Raise e.
Proof. destruct r; [discriminate | eauto]. Qed.

Lemma youtube_all_fetches_fail E channels acc st :
  (forall c, In c channels -> is_raise (http_get E (youtube_feed_url c)) = true) ->
  exists st', for_in channels (youtube_channel E) (acc, st) = (Ok tt, (acc, st')).
Proof.
  revert st. induction channels as [|c channels IH]; intros st Hall.
  - eexists. reflexivity.
  - destruct (is_raise_inv _ (Hall c (or_introl eq_refl))) as [e He].
    cbn [for_in]. unfold bind. rewrite (youtube_channel_fetch_fails _ _ e) by exact He.
    apply IH. intros c' Hc'. apply Hall. right. exact Hc'.
Qed.

Lemma reddit_all_fetches_fail E feeds acc st :
  (forall c, In c feeds -> is_raise (http_get E (reddit_url c)) = true) ->
  exists st', for_in feeds (reddit_feed E) (acc, st) = (Ok tt, (acc, st')).
Proof.
  revert st. induction feeds as [|c feeds IH]; intros st Hall.
  - eexists. reflexivity.
  - destruct (is_raise_inv _ (Hall c (or_introl eq_refl))) as [e He].
    cbn [for_in]. unfold bind. rewrite (reddit_feed_fetch_fails _ _ e) by exact He.
    apply IH. intros c' Hc'. apply Hall. right. exact Hc'.
Qed.

(** C5. For each of the five adapters: when the requests it makes fail, the
    adapter returns the empty list; nothing is raised to its caller. *)
Theorem fetch_failure_yields_nothing
    (self : ContentAgent) (E : Env) (st : St) (a : adapter) :
  (forall url, In url (requests self a) -> is_raise (http_get E url) = true) ->
  returns_nothing self E st a.
Proof.
  intros Hall. destruct a; unfold returns_nothing.
  - destruct (is_raise_inv _ (Hall _ (or_introl eq_refl))) as [e He].
    unfold scrape_apple_docs, returning, session_get, print.
    unfold try_except, lift, bind, emit, of_result.
    cbn [fst snd]. rewrite He. reflexivity.
  - unfold scrape_youtube_content, returning.
    destruct (youtube_all_fetches_fail E (src_youtube_channels (self_sources self))
                [] st) as [st' ->]; [|reflexivity].
    intros c Hc. apply Hall. cbn [requests]. apply in_map. exact Hc.
  - destruct (is_raise_inv _ (Hall _ (or_introl eq_refl))) as [e He].
    unfold scrape_github_trending, returning, session_get, print.
    unfold try_except, lift, bind, emit, of_result.
    cbn [fst snd]. rewrite He. reflexivity.
  - destruct (is_raise_inv _ (Hall _ (or_introl eq_refl))) as [e He].
    unfold scrape_swift_blog, returning, session_get, print.
    unfold try_except, lift, bind, emit, of_result.
    cbn [fst snd]. rewrite He. reflexivity.
  - unfold scrape_reddit_content, returning.
    destruct (reddit_all_fetches_fail E (src_reddit_feeds (self_sources self))
                [] st) as [st' ->]; [|reflexivity].
    intros c Hc. apply Hall. cbn [requests]. apply in_map. exact Hc.
Qed.

(** The YouTube adapter of the agent with every request failing. *)
Lemma fetch_failure_yields_nothing_witness :
  fst (scrape_youtube_content init offline book) = Ok [].
Proof.
  apply (fetch_failure_yields_nothing init offline book YouTube).
  intros url _. reflexivity.
Defined.

Lemma total_youtube_channel E channel_id : total (youtube_channel E channel_id).
Proof. unfold youtube_channel, print. repeat total_step. Qed.

Lemma total_reddit_feed E subreddit : total (reddit_feed E subreddit).
Proof. unfold reddit_feed, print. repeat total_step. Qed.




(** *** Freshness *)

Lemma leb_is_keepIfRecent (published_at : datetime) (window_days : Z) (t : datetime) :
  (t - published_at <=? timedelta_days window_days) =
  keepIfRecent published_at window_days t.
Proof. unfold keepIfRecent. apply Z.leb_antisym. Qed.

Lemma fresh_entries_cons w clock k e es :
  fresh_entries w clock k (e :: es) =
  (if keepIfRecent (published_at e) w (clock k) then [e] else []) ++
  fresh_entries w clock (S k) es.
Proof.
  unfold fresh_entries, stamped. cbn [length seq map combine List.filter fst snd].
  destruct (keepIfRecent (published_at e) w (clock k)); reflexivity.
Qed.

Lemma set_ticks_same st : set_ticks (ticks st + 0) st = st.
Proof. destruct st. unfold set_ticks. cbn. rewrite Nat.add_0_r. reflexivity. Qed.

Lemma youtube_entry_run E e acc st :
  complete_video e = true ->
  youtube_entry E e (acc, st) =
  (Ok tt,
   (acc ++ (if keepIfRecent (published_at e) 7 (clock E (ticks st))
            then [video_of e] else []),
    set_ticks (S (ticks st)) st)).
Proof.
  unfold complete_video, complete_post, youtube_entry, published_at, video_of.
  destruct e as [[title|] [link|] [pub|] [summary|] [author|]]; try discriminate.
  intros _. cbn [e_title e_link e_published_parsed e_summary e_author attr text_of].
  unfold bind, of_result, lift, now. cbn [fst snd].
  rewrite leb_is_keepIfRecent.
  destruct (keepIfRecent pub 7 (clock E (ticks st))); cbn [when].
  - reflexivity.
  - unfold ret. rewrite app_nil_r. reflexivity.
Qed.

Lemma blog_entry_run E e acc st :
  complete_post e = true ->
  blog_entry E e (acc, st) =
  (Ok tt,
   (acc ++ (if keepIfRecent (published_at e) 30 (clock E (ticks st))
            then [post_of e] else []),
    set_ticks (S (ticks st)) st)).
Proof.
  unfold complete_post, blog_entry, published_at, post_of.
  destruct e as [[title|] [link|] [pub|] [summary|] author]; try discriminate.
  intros _. cbn [e_title e_link e_published_parsed e_summary e_author attr text_of].
  unfold bind, of_result, lift, now. cbn [fst snd].
  rewrite leb_is_keepIfRecent.
  destruct (keepIfRecent pub 30 (clock E (ticks st))); cbn [when].
  - reflexivity.
  - unfold ret. rewrite app_nil_r. reflexivity.
Qed.

Lemma map_if {A B} (f : A -> B) (c : bool) (x : A) :
  (if c then [f x] else []) = map f (if c then [x] else []).
Proof. destruct c; reflexivity. Qed.

Lemma youtube_entries_run E es : forall acc st,
  forallb complete_video es = true ->
  for_in es (youtube_entry E) (acc, st) =
  (Ok tt,
   (acc ++ map video_of (fresh_entries 7 (clock E) (ticks st) es),
    set_ticks (ticks st + length es) st)).
Proof.
  induction es as [|e es IH]; intros acc st Hall.
  - cbn. rewrite app_nil_r, set_ticks_same. reflexivity.
  - cbn [forallb] in Hall. apply andb_prop in Hall as [He Hes].
    cbn [for_in]. unfold bind. rewrite youtube_entry_run by exact He.
    rewrite IH by exact Hes.
    rewrite fresh_entries_cons, map_app, <- map_if, <- app_assoc.
    cbn [length ticks set_ticks]. unfold set_ticks. cbn [tree next_sha ticks trace].
    rewrite Nat.add_succ_r. reflexivity.
Qed.

Lemma blog_entries_run E es : forall acc st,
  forallb complete_post es = true ->
  for_in es (blog_entry E) (acc, st) =
  (Ok tt,
   (acc ++ map post_of (fresh_entries 30 (clock E) (ticks st) es),
    set_ticks (ticks st + length es) st)).
Proof.
  induction es as [|e es IH]; intros acc st Hall.
  - cbn. rewrite app_nil_r, set_ticks_same. reflexivity.
  - cbn [forallb] in Hall. apply andb_prop in Hall as [He Hes].
    cbn [for_in]. unfold bind. rewrite blog_entry_run by exact He.
    rewrite IH by exact Hes.
    rewrite fresh_entries_cons, map_app, <- map_if, <- app_assoc.
    cbn [length ticks set_ticks]. unfold set_ticks. cbn [tree next_sha ticks trace].
    rewrite Nat.add_succ_r. reflexivity.
Qed.

(** C7. On a feed whose first five entries carry the attributes the loop
    reads, the videos a channel adds (window 7 days) and the posts the blog
    adapter returns (window 30 days) are those of the first five entries
    that [keepIfRecent] keeps, each judged at the clock reading taken when
    the loop reaches it; and [keepIfRecent] keeps a record exactly when
    [now - publishedAt <= window]: a record whose age is the window is kept,
    a record older than that is not. *)
Theorem freshness_filter_is_inclusive
    (self : ContentAgent) (E : Env) (channel_id feed_data blog_data : string)
    (videos : list video) (st : St) :
  http_get E (youtube_feed_url channel_id) = Ok feed_data ->
  forallb complete_video (slice_to 5 (feedparser_parse E feed_data)) = true ->
  http_get E "https://swift.org/blog/feed.xml" = Ok blog_data ->
  forallb complete_post (slice_to 5 (feedparser_parse E blog_data)) = true ->
  fst (snd (youtube_channel E channel_id (videos, st))) =
    videos ++ map video_of
      (fresh_entries 7 (clock E) (ticks st)
         (slice_to 5 (feedparser_parse E feed_data))) /\
  fst (scrape_swift_blog self E st) =
    Ok (map post_of
          (fresh_entries 30 (clock E) (ticks st)
             (slice_to 5 (feedparser_parse E blog_data)))) /\
  (forall published_at window_days now,
      keepIfRecent published_at window_days now = true <->
      now - published_at <= timedelta_days window_days) /\
  (forall published_at window_days,
      keepIfRecent published_at window_days
        (published_at + timedelta_days window_days) = true).
Proof.
  intros Hy Hyc Hb Hbc. split; [|split; [|split]].
  - unfold youtube_channel, session_get, print.
    unfold try_except, lift, bind, emit, of_result.
    fold (youtube_feed_url channel_id). cbn [fst snd]. rewrite Hy.
    rewrite youtube_entries_run by exact Hyc. reflexivity.
  - unfold scrape_swift_blog, returning, session_get, print.
    unfold try_except, lift, bind, emit, of_result.
    cbn [fst snd]. rewrite Hb.
    rewrite blog_entries_run by exact Hbc. reflexivity.
  - intros. unfold keepIfRecent. rewrite negb_true_iff, Z.ltb_ge. reflexivity.
  - intros. unfold keepIfRecent. rewrite negb_true_iff, Z.ltb_ge. lia.
Qed.

(** The sample feeds: the entries published exactly a window before the
    clock reading are kept, those a microsecond older are dropped. *)
Lemma freshness_filter_is_inclusive_witness :
  fst (snd (youtube_channel feeds_up "UC2D6eRvCeMtcF5OGHf1-trw" ([], book))) =
    [video_of (entry_at "edge" (93 * day)); video_of (entry_at "new" (99 * day))] /\
  fst (scrape_swift_blog init feeds_up book) =
    Ok [post_of (entry_at "edge" (70 * day))].
Proof.
  destruct (freshness_filter_is_inclusive init feeds_up
              "UC2D6eRvCeMtcF5OGHf1-trw" "VIDEOS" "POSTS" [] book)
    as (Hv & Hp & _); try reflexivity.
  rewrite Hv, Hp. split; vm_compute; reflexivity.
Defined.

(** *** Thresholds *)

Lemma reddit_post_run subreddit p acc st :
  reddit_post subreddit (post_json p) (acc, st) =
  (Ok tt,
   (acc ++ (if relevant p then [discussion_of subreddit p] else []), st)).
Proof.
  unfold reddit_post, post_json, relevant, discussion_of.
  unfold bind, of_result. cbn [py_getitem assoc String.eqb Ascii.eqb Bool.eqb title_lower].
  cbv beta iota.
  destruct (existsb _ reddit_keywords); cbn [when].
  - reflexivity.
  - unfold ret. rewrite app_nil_r. reflexivity.
Qed.

Lemma reddit_posts_run subreddit posts : forall acc st,
  for_in (map post_json posts) (reddit_post subreddit) (acc, st) =
  (Ok tt,
   (acc ++ map (discussion_of subreddit) (List.filter relevant posts), st)).
Proof.
  induction posts as [|p posts IH]; intros acc st.
  - cbn. rewrite app_nil_r. reflexivity.
  - cbn [map for_in List.filter]. unfold bind. rewrite reddit_post_run, IH.
    rewrite <- app_assoc. destruct (relevant p); reflexivity.
Qed.

(** C8, as the code has it.  No adapter reads the thresholds of the
    configuration.  From a listing Reddit answers with, a subreddit adds the
    posts whose title has one of the keywords, in order, with the score they
    came with, whatever that score is; a trending repository is added as
    soon as it has a title, with the star text it came with or "0". *)
Theorem thresholds_are_not_applied
    (E : Env) (subreddit body : string) (posts : list listed_post)
    (discussions : list discussion) (item : repo_item) (title : string)
    (repos : list repo) (st : St) :
  http_get E (reddit_url subreddit) = Ok body ->
  json_loads E body = Ok (listing posts) ->
  i_h2 item = Some title ->
  fst (snd (reddit_feed E subreddit (discussions, st))) =
    discussions ++ map (discussion_of subreddit) (List.filter relevant posts) /\
  (forall p score,
      relevant {| lp_title := lp_title p; lp_permalink := lp_permalink p;
                  lp_score := score; lp_comments := lp_comments p |}
      = relevant p) /\
  fst (snd (github_item item (repos, st))) =
    repos ++
    [{| r_name := remove_char " " (remove_char "010" (strip title));
        r_description := match i_desc item with Some d => strip d | None => EmptyString end;
        r_stars := match i_stars item with Some t => strip t | None => "0" end;
        r_url := "https://github.com/" +:+
                 remove_char " " (remove_char "010" (strip title)) |}].
Proof.
  intros Hget Hjson Htitle. split; [|split].
  - unfold reddit_feed, session_get, print.
    unfold try_except, lift, bind, emit, of_result.
    fold (reddit_url subreddit). cbn [fst snd]. rewrite Hget, Hjson.
    unfold listing. cbn [py_getitem assoc String.eqb Ascii.eqb Bool.eqb py_iter].
    cbv beta iota. rewrite reddit_posts_run. reflexivity.
  - reflexivity.
  - unfold github_item. rewrite Htitle. reflexivity.
Qed.

(** The sample listing: the post of score 0 is added. *)
Lemma thresholds_are_not_applied_witness :
  fst (snd (reddit_feed reddit_up "r/swift" ([], book))) =
    [discussion_of "r/swift" unpopular] /\
  fst (snd (github_item {| i_h2 := Some "apple / swift"; i_desc := None;
                           i_stars := Some "3" |} ([], book))) =
    [{| r_name := "apple/swift"; r_description := EmptyString; r_stars := "3";
        r_url := "https://github.com/apple/swift" |}].
Proof.
  destruct (thresholds_are_not_applied reddit_up "r/swift" "LISTING" [unpopular]
              [] {| i_h2 := Some "apple / swift"; i_desc := None;
                    i_stars := Some "3" |} "apple / swift" [] book)
    as (Hd & _ & Hr); try reflexivity.
  rewrite Hd, Hr. split; vm_compute; reflexivity.
Defined.

(** C8 as stated fails: a post of score 0, below the configured minimum of
    10, is returned by the Reddit adapter. *)
Lemma unpopular_post_is_collected :
  ~ reddit_threshold_applied init reddit_up empty_tree.
Proof.
  intros H.
  assert (Hrun : fst (scrape_reddit_content init reddit_up empty_tree) =
                 Ok [discussion_of "r/iOSProgramming" unpopular;
                     discussion_of "r/swift" unpopular])
    by (vm_compute; reflexivity).
  specialize (H _ _ Hrun (or_introl eq_refl)).
  unfold AgentConfig.MIN_REDDIT_SCORE in H. cbn in H. lia.
Qed.

(** *** Origins that fail, origins that answer *)











(* ===================================================================== *)
(** * Further properties of the publisher *)

(** Runs the publisher symbolically: every branch of its reads, writes and
    faults becomes a goal on an explicit final state. *)
Ltac run_publisher :=
  unfold update_course_repo, create_or_update, update_summary_file,
    get_contents, update_file, create_file, assert_str, fault, print;
  unfold try_except, bind, of_result, now, emit, ret, raise, set_trace,
    set_ticks, write_file;
  cbn [fst snd tree trace ticks next_sha];
  repeat (break_match;
          cbn [fst snd tree trace ticks next_sha sha decoded_content negb] in *).

(** X1. Whatever the generated content is and whatever GitHub answers, the
    publisher changes the content tree at two paths at most: the chapter of
    the day and the table of contents.  Every other file is as it was. *)
Theorem publisher_touches_two_paths
    (E : Env) (new_content : json) (st : St) (path : string) :
  path <> chapter_path (today E st) -> path <> summary_path ->
  tree (snd (update_course_repo E new_content st)) !! path = tree st !! path.
Proof.
  intros Hch Hs. unfold today in Hch. run_publisher;
    rewrite ?lookup_insert_ne by congruence; reflexivity.
Qed.

(** A publication in a repository that also holds a README. *)
Lemma publisher_touches_two_paths_witness :
  tree (snd (update_course_repo model_up
               (JObj [("new_chapter", JStr "# Lesson")]) book_with_readme))
    !! "README.md"
  = Some {| decoded_content := "# Course"; sha := 1 |}.
Proof.
  rewrite (publisher_touches_two_paths model_up
             (JObj [("new_chapter", JStr "# Lesson")]) book_with_readme
             "README.md").
  - vm_compute. reflexivity.
  - vm_compute. discriminate.
  - vm_compute. discriminate.
Defined.

(** X2. One run of the publisher adds at most two revisions to the content
    tree (the chapter and the table of contents), and never takes one
    away. *)
Theorem publisher_adds_at_most_two_revisions
    (E : Env) (new_content : json) (st : St) :
  (next_sha st <= next_sha (snd (update_course_repo E new_content st)) <=
   next_sha st + 2)%nat.
Proof. run_publisher; lia. Qed.

(** X3. When the generated content is empty, or is a dict without the key
    [new_chapter], the publisher places no call at all and leaves the content
    tree as it is; it returns normally (and in the second case still prints
    its line of success). *)
Theorem nothing_to_publish (E : Env) (new_content : json) (st : St) :
  py_truthy new_content = false \/
  py_contains "new_chapter" new_content = Ok false ->
  fst (update_course_repo E new_content st) = Ok tt /\
  List.filter is_called (since st (snd (update_course_repo E new_content st))) = [] /\
  tree (snd (update_course_repo E new_content st)) = tree st /\
  next_sha (snd (update_course_repo E new_content st)) = next_sha st.
Proof.
  intros [Hfalsy | Hkey].
  - unfold update_course_repo. rewrite Hfalsy. cbn. rewrite since_refl. auto.
  - unfold update_course_repo. destruct (negb (py_truthy new_content)).
    + cbn. rewrite since_refl. auto.
    + unfold try_except, bind, of_result, print, emit, ret. rewrite Hkey.
      cbn [fst snd tree next_sha set_trace].
      erewrite since_app by (cbn [trace set_trace]; reflexivity). auto.
Qed.

(** Content with code updates and no chapter. *)
Lemma nothing_to_publish_witness :
  update_course_repo github_down (JObj [("code_updates", JStr "let x = 1")]) book
  = (Ok tt, set_trace [Printed (Line "Repository updated with new content")] book).
Proof.
  destruct (nothing_to_publish github_down
              (JObj [("code_updates", JStr "let x = 1")]) book) as (Hr & _).
  - right. reflexivity.
  - vm_compute. reflexivity.
Defined.

(** X4. When the chapter the model returned is not a string (a list of
    sections, a nested object, a number), nothing is written: both the update
    and the creation are refused before they reach GitHub, the table of
    contents is not read, the content tree is as it was, and the publisher
    returns after printing the error. *)
Theorem structured_chapter_is_not_published
    (E : Env) (kv : list (string * json)) (chapter : json) (st : St) :
  assoc "new_chapter" kv = Some chapter ->
  is_jstring chapter = false ->
  let st' := snd (update_course_repo E (JObj kv) st) in
  fst (update_course_repo E (JObj kv) st) = Ok tt /\
  tree st' = tree st /\
  next_sha st' = next_sha st /\
  existsb (fun ev => match ev with
                     | Called (GetContents p) => String.eqb p summary_path
                     | _ => false
                     end) (since st st') = false /\
  List.last (since st st') (Slept 0) =
    Printed (LineErr "Error updating repository: "
               (Exception "AssertionError" "content")).
Proof.
  intros Hkv Hstr st'. subst st'.
  destruct kv as [|kv0 kv]; [discriminate|].
  assert (Hne : String.eqb (chapter_path (today E st)) summary_path = false)
    by (apply String.eqb_neq, chapter_is_not_summary).
  unfold today in Hne.
  unfold update_course_repo, py_truthy, py_contains, py_getitem. rewrite Hkv.
  cbn [negb].
  unfold create_or_update, update_summary_file, get_contents, update_file,
    create_file, assert_str, fault, print.
  unfold try_except, bind, of_result, now, emit, ret, raise, set_trace,
    set_ticks, write_file.
  cbn [fst snd tree trace ticks next_sha].
  destruct chapter; try discriminate;
    repeat (break_match;
            cbn [fst snd tree trace ticks next_sha sha decoded_content] in *);
    try discriminate;
    (erewrite since_app by (cbn [trace]; rewrite <- ?app_assoc; reflexivity));
    cbn [app existsb List.last orb]; rewrite ?Hne; auto.
Qed.

(** The model answers with a chapter cut into sections. *)
Lemma structured_chapter_is_not_published_witness :
  update_course_repo model_up
    (JObj [("new_chapter", JArr [JStr "# Part 1"; JStr "# Part 2"])]) book
  = (Ok tt,
     set_ticks 1
       (set_trace
          [Called (GetContents (chapter_path "20260105"));
           Called (CreateFile (chapter_path "20260105")
                     "Auto-generate: New chapter 20260105"
                     (JArr [JStr "# Part 1"; JStr "# Part 2"]));
           Printed (LineErr "Error updating repository: "
                      (Exception "AssertionError" "content"))] book)).
Proof.
  destruct (structured_chapter_is_not_published model_up
              [("new_chapter", JArr [JStr "# Part 1"; JStr "# Part 2"])]
              (JArr [JStr "# Part 1"; JStr "# Part 2"]) book) as (Hr & _);
    [reflexivity | reflexivity | vm_compute; reflexivity].
Defined.

(** The chapter path after a fault-free publication. *)
Lemma publish_then_read
    (E : Env) (kv : list (string * json)) (body : string) (st : St) :
  (forall c, github_fault E c = None) ->
  assoc "new_chapter" kv = Some (JStr body) ->
  decoded_content <$>
    (tree (snd (update_course_repo E (JObj kv) st)) !! chapter_path (today E st))
  = Some body.
Proof.
  intros Hf Hkv. destruct kv as [|kv0 kv]; [discriminate|].
  pose proof (chapter_is_not_summary (today E st)) as Hne. unfold today in *.
  unfold update_course_repo, py_truthy, py_contains, py_getitem. rewrite Hkv.
  cbn [negb].
  unfold create_or_update, update_summary_file, get_contents, update_file,
    create_file, assert_str, fault, print.
  unfold try_except, bind, of_result, now, emit, ret, raise, set_trace,
    set_ticks, write_file.
  cbn [fst snd tree trace ticks next_sha].
  repeat (rewrite ?Hf, ?Nat.eqb_refl;
          cbn [fst snd tree trace ticks next_sha sha decoded_content] in *;
          break_match);
    rewrite ?Hf, ?Nat.eqb_refl in *;
    cbn [fst snd tree trace ticks next_sha sha decoded_content] in *;
    simplify_eq; rewrite ?Nat.eqb_refl in *; try discriminate;
    rewrite ?lookup_insert_ne by congruence;
    rewrite ?lookup_insert_eq; try reflexivity.
Qed.

(** X5. With GitHub answering without faults, what the publisher was given
    as chapter is what the repository holds at the chapter path of the day
    afterwards, whether the chapter existed before (it is overwritten) or
    not (it is created), and whether or not there is a table of contents. *)
Theorem published_chapter_reads_back
    (E : Env) (kv : list (string * json)) (body : string) (st : St) :
  (forall c, github_fault E c = None) ->
  assoc "new_chapter" kv = Some (JStr body) ->
  decoded_content <$>
    (tree (snd (update_course_repo E (JObj kv) st)) !! chapter_path (today E st))
  = Some body.
Proof. apply publish_then_read. Qed.

(** The chapter of the day exists already and is overwritten. *)
Lemma published_chapter_reads_back_witness :
  decoded_content <$>
    (tree (snd (update_course_repo model_up
                  (JObj [("new_chapter", JStr "# Lesson 2")]) book_with_chapter))
       !! chapter_path "20260105")
  = Some "# Lesson 2".
Proof.
  apply (published_chapter_reads_back model_up
           [("new_chapter", JStr "# Lesson 2")] "# Lesson 2" book_with_chapter);
    intros; reflexivity.
Defined.

(** X6. The publisher never shortens and never creates the table of
    contents, whatever the content and whatever GitHub answers: a table of
    contents that exists keeps its text as a prefix of what it holds
    afterwards, and one that does not exist still does not exist. *)
Theorem summary_only_grows (E : Env) (new_content : json) (st : St) :
  match tree st !! summary_path with
  | Some summary_file =>
      exists suffix,
        decoded_content <$>
          (tree (snd (update_course_repo E new_content st)) !! summary_path)
        = Some (decoded_content summary_file +:+ suffix)
  | None =>
      tree (snd (update_course_repo E new_content st)) !! summary_path = None
  end.
Proof.
  pose proof (chapter_is_not_summary (today E st)) as Hne. unfold today in Hne.
  destruct (tree st !! summary_path) as [fs|] eqn:Hs; run_publisher;
    repeat match goal with
           | H : <[_ := _]> _ !! summary_path = _ |- _ =>
               rewrite lookup_insert_ne in H by congruence
           end;
    simplify_eq;
    rewrite ?lookup_insert_eq, ?lookup_insert_ne by congruence;
    rewrite ?lookup_insert_eq, ?Hs; cbn [fmap option_fmap option_map decoded_content];
    try reflexivity; try congruence;
    first [ exists EmptyString; rewrite append_empty_r; reflexivity
          | eexists; rewrite append_assoc; reflexivity
          | eexists; reflexivity ].
Qed.

(** X7. Without a table of contents the chapter is still published, and the
    run still reports success: with GitHub answering without faults and no
    [SUMMARY.md] in the repository, the publisher writes the chapter (an
    update if it exists, a creation if not), fails to read the table of
    contents, prints that error, creates no table of contents, and then
    prints its line of success. *)
Theorem chapter_is_published_without_summary
    (E : Env) (kv : list (string * json)) (body : string) (st : St) :
  (forall c, github_fault E c = None) ->
  assoc "new_chapter" kv = Some (JStr body) ->
  tree st !! summary_path = None ->
  let timestamp := today E st in
  let st' := snd (update_course_repo E (JObj kv) st) in
  since st st' =
    [Called (GetContents (chapter_path timestamp));
     Called (match tree st !! chapter_path timestamp with
             | Some file =>
                 UpdateFile (chapter_path timestamp)
                   ("Auto-update: New chapter " +:+ timestamp) (JStr body)
                   (sha file)
             | None =>
                 CreateFile (chapter_path timestamp)
                   ("Auto-generate: New chapter " +:+ timestamp) (JStr body)
             end);
     Called (GetContents summary_path);
     Printed (LineErr "Error updating SUMMARY.md: "
                (Exception "UnknownObjectException" "404"));
     Printed (Line "Repository updated with new content")] /\
  tree st' = <[chapter_path timestamp :=
                 {| decoded_content := body; sha := next_sha st |}]> (tree st).
Proof.
  intros Hf Hkv Hs timestamp st'. subst st' timestamp.
  destruct kv as [|kv0 kv]; [discriminate|].
  pose proof (chapter_is_not_summary (today E st)) as Hne. unfold today in *.
  unfold update_course_repo, py_truthy, py_contains, py_getitem. rewrite Hkv.
  cbn [negb].
  unfold create_or_update, update_summary_file, get_contents, update_file,
    create_file, assert_str, fault, print.
  unfold try_except, bind, of_result, now, emit, ret, raise, set_trace,
    set_ticks, write_file.
  cbn [fst snd tree trace ticks next_sha].
  repeat (rewrite ?Hf, ?Nat.eqb_refl;
          cbn [fst snd tree trace ticks next_sha sha decoded_content] in *;
          break_match);
    rewrite ?Hf, ?Nat.eqb_refl in *;
    cbn [fst snd tree trace ticks next_sha sha decoded_content] in *;
    repeat match goal with
           | H : <[_ := _]> _ !! summary_path = _ |- _ =>
               rewrite lookup_insert_ne in H by congruence
           end;
    simplify_eq; rewrite ?Nat.eqb_refl in *; try discriminate;
    (split; [|reflexivity]);
    (erewrite since_app by (cbn [trace]; rewrite <- ?app_assoc; reflexivity));
    reflexivity.
Qed.

(** The chapter of the day in a repository without a table of contents. *)
Lemma chapter_is_published_without_summary_witness :
  tree (snd (update_course_repo model_up
               (JObj [("new_chapter", JStr "# Lesson")]) empty_tree))
  = {[ chapter_path "20260105" := {| decoded_content := "# Lesson"; sha := 0 |} ]}.
Proof.
  destruct (chapter_is_published_without_summary model_up
              [("new_chapter", JStr "# Lesson")] "# Lesson" empty_tree)
    as (_ & Ht);
    [intros; reflexivity | reflexivity | reflexivity
    | rewrite Ht; vm_compute; reflexivity].
Defined.

(* ===================================================================== *)
(** * Further properties of the cycle *)

Lemma analyze_content_run E content_data st :
  exists lines,
    analyze_content E content_data st =
    (Ok (parsed_or_empty E (analysis_request content_data)),
     set_trace (trace st ++ Called (ChatCreate (analysis_request content_data))
                  :: map Printed lines) st).
Proof.
  unfold analyze_content, parsed_or_empty, chat, print.
  unfold try_except, bind, of_result, emit, ret.
  fold (analysis_request content_data). cbn [fst snd].
  destruct (chat_create E (analysis_request content_data)) as [text|e];
    [destruct (json_loads E text) as [j|e]|].
  - exists []. reflexivity.
  - eexists [_]. unfold set_trace. cbn [tree next_sha ticks trace map].
    rewrite <- app_assoc. reflexivity.
  - eexists [_]. unfold set_trace. cbn [tree next_sha ticks trace map].
    rewrite <- app_assoc. reflexivity.
Qed.

Lemma generate_course_updates_run E insights st :
  exists lines,
    generate_course_updates E insights st =
    (Ok (parsed_or_empty E (generation_request insights)),
     set_trace (trace st ++ Called (ChatCreate (generation_request insights))
                  :: map Printed lines) st).
Proof.
  unfold generate_course_updates, parsed_or_empty, chat, print.
  unfold try_except, bind, of_result, emit, ret.
  fold (generation_request insights). cbn [fst snd].
  destruct (chat_create E (generation_request insights)) as [text|e];
    [destruct (json_loads E text) as [j|e]|].
  - exists []. reflexivity.
  - eexists [_]. unfold set_trace. cbn [tree next_sha ticks trace map].
    rewrite <- app_assoc. reflexivity.
  - eexists [_]. unfold set_trace. cbn [tree next_sha ticks trace map].
    rewrite <- app_assoc. reflexivity.
Qed.

Lemma filter_printed (P : event -> bool) lines :
  (forall m, P (Printed m) = false) -> List.filter P (map Printed lines) = [].
Proof.
  intros HP. induction lines as [|m lines IH]; [reflexivity|].
  cbn [map List.filter]. rewrite HP. exact IH.
Qed.

Lemma firstn_length_le {A} n (xs : list A) : (length (firstn n xs) <= n)%nat.
Proof. rewrite length_firstn. lia. Qed.

(** X8. The analysis step sends one request and nothing else leaves the
    process; the request carries at most 5 videos, 5 documentation updates,
    5 repositories, 3 blog posts and 5 discussions, 23 records in all,
    however large the snapshot; the step returns what the answer parses to,
    or the empty dict when the call or the parse fails; and two snapshots
    with the same leading records are analysed in the same way. *)
Theorem analysis_request_is_bounded
    (E : Env) (content_data other : content) (st : St) :
  slice_to 5 (youtube_videos other) = slice_to 5 (youtube_videos content_data) ->
  slice_to 5 (apple_updates other) = slice_to 5 (apple_updates content_data) ->
  slice_to 5 (github_trending other) = slice_to 5 (github_trending content_data) ->
  slice_to 3 (swift_blog other) = slice_to 3 (swift_blog content_data) ->
  slice_to 5 (reddit_discussions other)
    = slice_to 5 (reddit_discussions content_data) ->
  let req := analysis_request content_data in
  fst (analyze_content E content_data st) = Ok (parsed_or_empty E req) /\
  List.filter is_called (since st (snd (analyze_content E content_data st)))
    = [Called (ChatCreate req)] /\
  (prompt_size (messages req) <= 23)%nat /\
  analyze_content E other st = analyze_content E content_data st.
Proof.
  intros Hv Hu Hr Hp Hd req.
  destruct (analyze_content_run E content_data st) as [lines Hrun].
  rewrite Hrun. cbn [fst snd]. repeat split.
  - erewrite since_app by (cbn [set_trace trace]; reflexivity).
    cbn [List.filter is_called]. rewrite filter_printed by reflexivity.
    reflexivity.
  - unfold req, analysis_request, slice_to. cbn [messages prompt_size].
    pose proof (firstn_length_le 5 (youtube_videos content_data)).
    pose proof (firstn_length_le 5 (apple_updates content_data)).
    pose proof (firstn_length_le 5 (github_trending content_data)).
    pose proof (firstn_length_le 3 (swift_blog content_data)).
    pose proof (firstn_length_le 5 (reddit_discussions content_data)).
    lia.
  - rewrite <- Hrun.
    unfold analyze_content. rewrite Hv, Hu, Hr, Hp, Hd. reflexivity.
Qed.

(** Two snapshots that differ in their fourth blog post only. *)
Lemma analysis_request_is_bounded_witness :
  analyze_content model_up (four_posts "Swift 6.1 released") book
  = analyze_content model_up (four_posts "Swift 5.10 released") book.
Proof.
  apply (analysis_request_is_bounded model_up (four_posts "Swift 5.10 released")
           (four_posts "Swift 6.1 released") book); reflexivity.
Defined.

(** X9. In every cycle, whatever the sources, the model and GitHub do, the
    model is called exactly twice: once for the analysis of the snapshot the
    adapters returned, then once for the generation, with the insights the
    analysis step returned (the empty dict when the analysis failed). *)
Theorem model_is_called_twice (self : ContentAgent) (E : Env) (st : St) :
  exists content_data,
    fst (scrape_all_sources self E st) = Ok content_data /\
    List.filter is_chat (since st (snd (pipeline self E st))) =
      [Called (ChatCreate (analysis_request content_data));
       Called (ChatCreate
                 (generation_request
                    (parsed_or_empty E (analysis_request content_data))))].
Proof.
  destruct (total_run _ st (total_scrape_all_sources self E)) as (c & s1 & Hs).
  destruct (emits_run _ _ st (emits_scrape_all_sources self E)) as (e1 & He1 & Hp1).
  rewrite Hs in He1. cbn [snd] in He1.
  destruct (analyze_content_run E c s1) as [l2 Ha].
  set (insights := parsed_or_empty E (analysis_request c)) in *.
  set (s2 := set_trace _ s1) in Ha.
  destruct (generate_course_updates_run E insights s2) as [l3 Hg].
  set (s3 := set_trace _ s2) in Hg.
  set (new_content := parsed_or_empty E (generation_request insights)) in *.
  destruct (total_run _ s3 (total_update_course_repo E new_content)) as ([] & s4 & Hu).
  destruct (emits_run _ _ s3 (emits_update_course_repo E new_content))
    as (e4 & He4 & Hp4).
  rewrite Hu in He4. cbn [snd] in He4.
  destruct (emits_run _ _ s4 (emits_deploy_updates E)) as (e5 & He5 & Hp5).
  exists c. rewrite Hs. split; [reflexivity|].
  unfold pipeline, bind. rewrite Hs, Ha, Hg, Hu.
  erewrite since_app.
  2:{ rewrite He5, He4. unfold s3, s2. cbn [trace set_trace]. rewrite He1.
      rewrite <- !app_assoc. reflexivity. }
  rewrite !List.filter_app. cbn [List.filter is_chat].
  rewrite !filter_printed by reflexivity.
  rewrite (filter_none is_scrape is_chat e1);
    [|intros [[]| |]; cbn; congruence | exact Hp1].
  rewrite (filter_none is_publish is_chat e4);
    [|intros [[]| |]; cbn; congruence | exact Hp4].
  rewrite (filter_none is_deploy_or_print is_chat e5);
    [|intros [[]| |]; cbn; congruence | exact Hp5].
  reflexivity.
Qed.

Lemma pass_events self E st :
  exists evs,
    trace (snd (iteration E (pipeline self E) st)) = trace st ++ evs /\
    List.filter is_sleep evs = [Slept 21600].
Proof.
  rewrite iteration_run.
  destruct (emits_run _ _ (started E st) (emits_pipeline self E))
    as (evs & Hevs & Hall).
  destruct (total_run _ (started E st) (total_pipeline self E)) as ([] & st1 & Hrun).
  rewrite Hrun in *. cbn [snd] in *.
  exists (Printed (LineAt "Starting content cycle at " (clock E (ticks st))) :: evs ++
          [Printed (Line "Cycle completed. Sleeping for 6 hours..."); Slept 21600]).
  split.
  - cbn [trace set_trace]. rewrite Hevs. cbn [started trace set_trace].
    rewrite <- !app_assoc. reflexivity.
  - cbn [List.filter is_sleep]. rewrite List.filter_app.
    rewrite (filter_none (fun ev => negb (is_sleep ev)) is_sleep evs);
      [reflexivity | | assumption].
    intros ev. destruct (is_sleep ev); simpl; congruence.
Qed.

(** X10. The agent never backs off.  Every fault of a cycle is contained in
    the step it occurs in, so in every world the loop run for [n] passes is
    still looping and has slept exactly [n] times, each time 21600 seconds:
    the sleep of 1800 seconds is never reached by the agent's own
    pipeline. *)
Theorem agent_never_backs_off
    (self : ContentAgent) (envs : nat -> Env) (n : nat) (st : St) :
  fst (run_autonomous_cycle self envs n st) = Looping /\
  List.filter is_sleep (since st (snd (run_autonomous_cycle self envs n st)))
    = repeat (Slept 21600) n.
Proof.
  assert (Htot : forall k, total ((fun k => iteration (envs k) (pipeline self (envs k))) k))
    by (intros; apply total_iteration).
  split; [apply while_true_total, Htot|].
  assert (Hind : exists evs,
             trace (snd (run_autonomous_cycle self envs n st)) = trace st ++ evs /\
             List.filter is_sleep evs = repeat (Slept 21600) n).
  { induction n as [|n IH].
    - exists []. cbn. rewrite app_nil_r. auto.
    - destruct IH as (evs & Ht & Hf).
      unfold run_autonomous_cycle, scheduler in *.
      rewrite while_true_last by apply Htot. cbn [Nat.add].
      destruct (pass_events self (envs n)
                  (snd (while_true n
                          (fun k => iteration (envs k) (pipeline self (envs k)))
                          0%nat st))) as (evs' & Ht' & Hf').
      exists (evs ++ evs'). split.
      + rewrite Ht', Ht, app_assoc. reflexivity.
      + rewrite List.filter_app, Hf, Hf'.
        change (repeat (Slept 21600) (S n))
          with (Slept 21600 :: repeat (Slept 21600) n).
        rewrite repeat_cons. reflexivity. }
  destruct Hind as (evs & Ht & Hf). rewrite (since_app _ _ _ Ht). exact Hf.
Qed.

(* ===================================================================== *)
(** * Further properties of the adapters *)

(** *** Invariants of a run *)

Section Stable.
Context {S : Type} (I : S -> Prop).

Lemma stable_ret {A} (a : A) : stable I (ret a).
Proof. intros s Hs. exact Hs. Qed.

Lemma stable_raise {A} e : stable I (raise (A := A) e).
Proof. intros s Hs. exact Hs. Qed.

Lemma stable_of_result {A} (r : result A) : stable I (of_result r).
Proof. intros s Hs. exact Hs. Qed.

Lemma stable_bind {A B} (m : M S A) (k : A -> M S B) :
  stable I m -> (forall a, stable I (k a)) -> stable I (bind m k).
Proof.
  intros Hm Hk s Hs. unfold bind. specialize (Hm s Hs).
  destruct (m s) as [[a|e] s1]; cbn [snd] in *; [apply Hk|]; assumption.
Qed.

Lemma stable_try_except {A} (m : M S A) (h : exn -> M S A) :
  stable I m -> (forall e, stable I (h e)) -> stable I (try_except m h).
Proof.
  intros Hm Hh s Hs. unfold try_except. specialize (Hm s Hs).
  destruct (m s) as [[a|e] s1]; cbn [snd] in *; [|apply Hh]; assumption.
Qed.

Lemma stable_for_in {A} (xs : list A) (body : A -> M S unit) :
  (forall x, stable I (body x)) -> stable I (for_in xs body).
Proof.
  intros Hb. induction xs as [|x xs IH]; cbn [for_in].
  - apply stable_ret.
  - apply stable_bind; auto.
Qed.

Lemma stable_when (c : bool) (m : M S unit) : stable I m -> stable I (when c m).
Proof. destruct c; cbn [when]; auto using stable_ret. Qed.
End Stable.

Lemma stable_lift {L A} (I : L * St -> Prop) (m : M St A) :
  (forall l w, I (l, w) -> I (l, snd (m w))) -> stable I (lift m).
Proof.
  intros Hm [l w] Hs. unfold lift. cbn [fst snd].
  specialize (Hm l w Hs). destruct (m w) as [r w']. exact Hm.
Qed.

Lemma stable_append {R} (I : list R * St -> Prop) (x : R) :
  (forall l w, I (l, w) -> I (l ++ [x], w)) -> stable I (append x).
Proof. intros Hx [l w] Hs. apply Hx. exact Hs. Qed.

Lemma stable_returning {R} (I : list R * St -> Prop) (body : M (list R * St) unit) st :
  stable I body -> I ([], st) ->
  match returning body st with
  | (Ok xs, st') => I (xs, st')
  | (Raise _, _) => True
  end.
Proof.
  intros Hb H0. unfold returning. specialize (Hb ([], st) H0).
  destruct (body ([], st)) as [[[]|e] [xs st']]; [exact Hb | trivial].
Qed.

(** *** The requests of a run *)

Lemma filter_is_called_prints evs :
  forallb is_printed evs = true -> List.filter is_called evs = [].
Proof.
  apply filter_none. intros [c|m|n]; cbn; congruence.
Qed.

Lemma fetches_bind {S} `{Traced S} {A B} urls1 urls2 (m : M S A) (k : A -> M S B) :
  total m -> fetches urls1 m -> (forall a, fetches urls2 (k a)) ->
  fetches (urls1 ++ urls2) (bind m k).
Proof.
  intros Ht Hm Hk s. unfold bind.
  destruct (Hm s) as (evs & Hevs & Hf).
  destruct (total_run m s Ht) as (a & s1 & Hrun). rewrite Hrun in *. cbn [snd] in *.
  destruct (Hk a s1) as (evs' & Hevs' & Hf').
  exists (evs ++ evs'). split.
  - rewrite Hevs', Hevs, app_assoc. reflexivity.
  - rewrite List.filter_app, Hf, Hf', map_app. reflexivity.
Qed.

Lemma fetches_ret {S} `{Traced S} {A} (a : A) : fetches [] (ret (S := S) a).
Proof. intros s. exists []. cbn. rewrite app_nil_r. auto. Qed.

Lemma fetches_for_in {S} `{Traced S} {A} (url : A -> string) (xs : list A)
    (body : A -> M S unit) :
  (forall x, total (body x)) -> (forall x, fetches [url x] (body x)) ->
  fetches (map url xs) (for_in xs body).
Proof.
  intros Ht Hb. induction xs as [|x xs IH]; cbn [for_in map].
  - apply fetches_ret.
  - apply (fetches_bind [url x] (map url xs)); auto.
Qed.

Lemma fetches_returning {R} urls (body : M (list R * St) unit) :
  fetches urls body -> fetches urls (returning body).
Proof.
  intros Hb st. destruct (Hb ([], st)) as (evs & Hevs & Hf). exists evs.
  unfold returning, events_of, traced_local, traced_world in *.
  destruct (body ([], st)) as [[a|e] [xs st']]; cbn [fst snd] in *; auto.
Qed.

(** One guarded request: the block [try: fetch url; k  except: h], where [k]
    and [h] only print. *)
Lemma fetches_block {R A} E url (k : string -> M (list R * St) A)
    (h : exn -> M (list R * St) A) :
  (forall x, emits is_printed (k x)) -> (forall e, emits is_printed (h e)) ->
  fetches [url] (try_except (let* x := lift (session_get E url) in k x) h).
Proof.
  intros Hk Hh [l w]. unfold session_get.
  unfold try_except, bind, lift, emit, of_result.
  unfold events_of, traced_local. cbn [fst snd].
  destruct (http_get E url) as [text|e].
  - destruct (Hk text (l, set_trace (trace w ++ [Called (SessionGet url)]) w))
      as (evs & Hevs & Hp).
    unfold events_of, traced_local in Hevs. cbn [fst snd trace set_trace] in Hevs.
    destruct (k text _) as [[a|e] s1]; cbn [fst snd] in *.
    + exists (Called (SessionGet url) :: evs). split.
      * rewrite Hevs, <- app_assoc. reflexivity.
      * cbn [List.filter is_called map]. rewrite filter_is_called_prints by exact Hp.
        reflexivity.
    + destruct (Hh e s1) as (evs' & Hevs' & Hp').
      unfold events_of, traced_local in Hevs'.
      destruct (h e s1) as [r s2]; cbn [fst snd] in *.
      exists (Called (SessionGet url) :: evs ++ evs'). split.
      * rewrite Hevs', Hevs, <- !app_assoc. reflexivity.
      * cbn [List.filter is_called map]. rewrite List.filter_app.
        rewrite !filter_is_called_prints by assumption. reflexivity.
  - destruct (Hh e (l, set_trace (trace w ++ [Called (SessionGet url)]) w))
      as (evs' & Hevs' & Hp').
    unfold events_of, traced_local in Hevs'. cbn [fst snd trace set_trace] in Hevs'.
    destruct (h e _) as [r s2]; cbn [fst snd] in *.
    exists (Called (SessionGet url) :: evs'). split.
    + rewrite Hevs', <- app_assoc. reflexivity.
    + cbn [List.filter is_called map]. rewrite filter_is_called_prints by exact Hp'.
      reflexivity.
Qed.

Ltac printed_step :=
  first [ apply emits_try_except | apply emits_for_in | apply emits_when
        | apply emits_lift | apply emits_append | apply emits_ret
        | apply emits_raise | apply emits_of_result | apply emits_now
        | apply emits_emit; reflexivity | apply emits_bind | intro ].

Lemma printed_apple_item item : emits is_printed (apple_item item).
Proof. unfold apple_item. destruct (i_h3 item), (i_time item); repeat printed_step. Qed.

Lemma printed_github_item item : emits is_printed (github_item item).
Proof. unfold github_item. destruct (i_h2 item); repeat printed_step. Qed.

Lemma printed_youtube_entry E e : emits is_printed (youtube_entry E e).
Proof. unfold youtube_entry. repeat printed_step. Qed.

Lemma printed_blog_entry E e : emits is_printed (blog_entry E e).
Proof. unfold blog_entry. repeat printed_step. Qed.

Lemma printed_reddit_post subreddit p : emits is_printed (reddit_post subreddit p).
Proof. unfold reddit_post. repeat printed_step. Qed.

Lemma printed_handler {L} text e :
  emits is_printed (lift (L := L) (print (LineErr text e))).
Proof. apply emits_lift, emits_emit. reflexivity. Qed.

Lemma fetches_scrape_apple_docs self E :
  fetches (requests self AppleDocs) (scrape_apple_docs self E).
Proof.
  unfold scrape_apple_docs. apply fetches_returning, fetches_block.
  - intros html. apply emits_for_in. intros item. apply printed_apple_item.
  - intros e. apply printed_handler.
Qed.

Lemma fetches_scrape_github_trending self E :
  fetches (requests self GitHubTrending) (scrape_github_trending self E).
Proof.
  unfold scrape_github_trending. apply fetches_returning, fetches_block.
  - intros html. apply emits_for_in. intros item. apply printed_github_item.
  - intros e. apply printed_handler.
Qed.

Lemma fetches_scrape_swift_blog self E :
  fetches (requests self SwiftBlog) (scrape_swift_blog self E).
Proof.
  unfold scrape_swift_blog. apply fetches_returning, fetches_block.
  - intros html. apply emits_for_in. intros item. apply printed_blog_entry.
  - intros e. apply printed_handler.
Qed.

Lemma fetches_youtube_channel E channel_id :
  fetches [youtube_feed_url channel_id] (youtube_channel E channel_id).
Proof.
  unfold youtube_channel. apply fetches_block.
  - intros html. apply emits_for_in. intros item. apply printed_youtube_entry.
  - intros e. apply printed_handler.
Qed.

Lemma fetches_reddit_feed E subreddit :
  fetches [reddit_url subreddit] (reddit_feed E subreddit).
Proof.
  unfold reddit_feed. apply fetches_block.
  - intros body. repeat (apply emits_bind; [apply emits_of_result | intro]).
    apply emits_for_in. intros p. apply printed_reddit_post.
  - intros e. apply printed_handler.
Qed.

Lemma fetches_scrape_youtube_content self E :
  fetches (requests self YouTube) (scrape_youtube_content self E).
Proof.
  unfold scrape_youtube_content. apply fetches_returning.
  apply (fetches_for_in youtube_feed_url).
  - apply total_youtube_channel.
  - apply fetches_youtube_channel.
Qed.

Lemma fetches_scrape_reddit_content self E :
  fetches (requests self Reddit) (scrape_reddit_content self E).
Proof.
  unfold scrape_reddit_content. apply fetches_returning.
  apply (fetches_for_in reddit_url).
  - apply total_reddit_feed.
  - apply fetches_reddit_feed.
Qed.

Lemma fetches_scrape_all_sources self E :
  fetches (all_requests self) (scrape_all_sources self E).
Proof.
  unfold scrape_all_sources, all_requests.
  apply fetches_bind;
    [apply total_scrape_apple_docs | apply fetches_scrape_apple_docs | intro].
  apply fetches_bind;
    [apply total_scrape_youtube_content | apply fetches_scrape_youtube_content | intro].
  apply fetches_bind;
    [apply total_scrape_github_trending | apply fetches_scrape_github_trending | intro].
  apply fetches_bind;
    [apply total_scrape_swift_blog | apply fetches_scrape_swift_blog | intro].
  rewrite <- (app_nil_r (requests self Reddit)).
  apply fetches_bind;
    [apply total_scrape_reddit_content | apply fetches_scrape_reddit_content | intro].
  apply fetches_ret.
Qed.

(** *** The adapters leave the repository alone *)

Lemma stable_returning_world {R} (J : St -> Prop) (body : M (list R * St) unit) :
  stable (fun s => J (snd s)) body -> stable J (returning body).
Proof.
  intros Hb st Hs. unfold returning. specialize (Hb ([], st) Hs).
  destruct (body ([], st)) as [[[]|e] [xs st']]; exact Hb.
Qed.

Lemma store_session_get {L} st0 E url :
  stable (fun s : L * St => same_store st0 (snd s)) (lift (session_get E url)).
Proof.
  apply stable_lift. intros l w Hw. unfold session_get, bind, emit, of_result.
  cbn [fst snd]. exact Hw.
Qed.

Lemma store_print {L} st0 m :
  stable (fun s : L * St => same_store st0 (snd s)) (lift (print m)).
Proof. apply stable_lift. intros l w Hw. exact Hw. Qed.

Lemma store_now {L} st0 E :
  stable (fun s : L * St => same_store st0 (snd s)) (lift (now E)).
Proof. apply stable_lift. intros l w Hw. exact Hw. Qed.

Ltac store_step :=
  first [ apply store_session_get | apply store_print | apply store_now
        | apply stable_returning_world
        | apply stable_try_except | apply stable_for_in | apply stable_when
        | apply stable_ret | apply stable_raise | apply stable_of_result
        | apply stable_append; intros ? ? H; exact H
        | apply stable_bind | intro ].

Lemma store_apple_item st0 item :
  stable (fun s : list update * St => same_store st0 (snd s)) (apple_item item).
Proof.
  unfold apple_item. destruct (i_h3 item), (i_time item); repeat store_step.
Qed.

Lemma store_github_item st0 item :
  stable (fun s : list repo * St => same_store st0 (snd s)) (github_item item).
Proof. unfold github_item. destruct (i_h2 item); repeat store_step. Qed.

Lemma store_scrape_all_sources st0 self E :
  stable (same_store st0) (scrape_all_sources self E).
Proof.
  unfold scrape_all_sources.
  apply stable_bind; [|intro; apply stable_bind; [|intro; apply stable_bind;
    [|intro; apply stable_bind; [|intro; apply stable_bind;
      [|intro; apply stable_ret]]]]].
  - unfold scrape_apple_docs.
    repeat first [apply store_apple_item | store_step].
  - unfold scrape_youtube_content, youtube_channel, youtube_entry.
    repeat store_step.
  - unfold scrape_github_trending.
    repeat first [apply store_github_item | store_step].
  - unfold scrape_swift_blog, blog_entry. repeat store_step.
  - unfold scrape_reddit_content, reddit_feed, reddit_post. repeat store_step.
Qed.

(** X11. One run of the adapters, in any world: it returns a snapshot (no
    fault of a source, of a parser or of a payload is raised to the cycle);
    the calls it places are one request per configured address, Apple's
    documentation first, then each YouTube channel, GitHub trending, the
    Swift blog and each subreddit, in this order, none repeated and none
    skipped after a failure; and the content tree is not touched. *)
Theorem sources_are_requested_once_in_order
    (self : ContentAgent) (E : Env) (st : St) :
  (exists content_data, fst (scrape_all_sources self E st) = Ok content_data) /\
  List.filter is_called (since st (snd (scrape_all_sources self E st))) =
    map (fun url => Called (SessionGet url)) (all_requests self) /\
  same_store st (snd (scrape_all_sources self E st)).
Proof.
  split; [|split].
  - destruct (total_run _ st (total_scrape_all_sources self E)) as (c & s1 & ->).
    eauto.
  - destruct (fetches_scrape_all_sources self E st) as (evs & Hevs & Hf).
    rewrite (since_app _ _ _ Hevs). exact Hf.
  - apply store_scrape_all_sources. split; reflexivity.
Qed.

(** *** Pages of items *)

Lemma apple_items_run items : forall acc st,
  exists r,
    for_in items apple_item (acc, st) =
    (r, (acc ++ map update_of (List.filter listed (until broken_link items)), st)).
Proof.
  induction items as [|item items IH]; intros acc st.
  - exists (Ok tt). cbn. rewrite app_nil_r. reflexivity.
  - cbn [for_in until]. unfold bind.
    unfold apple_item at 1. unfold broken_link, listed, update_of.
    destruct item as [[title|] [date|] p [[href|]|]];
      cbn [i_h3 i_time i_p i_a has andb text_of List.filter map];
      unfold bind, of_result, append, ret; cbn [fst snd];
      try (destruct (IH acc st) as [r ->]; exists r; reflexivity).
    + cbn [listed has i_h3 i_time andb]. 
      destruct (IH (acc ++ [{| u_title := strip title; u_date := date;
                              u_description := match p with
                                               | Some d => strip d
                                               | None => EmptyString
                                               end;
                              u_url := href |}]) st) as [r ->].
      exists r. rewrite <- app_assoc. reflexivity.
    + eexists. cbn [List.filter map]. rewrite app_nil_r. reflexivity.
    + cbn [listed has i_h3 i_time andb].
      destruct (IH (acc ++ [{| u_title := strip title; u_date := date;
                              u_description := match p with
                                               | Some d => strip d
                                               | None => EmptyString
                                               end;
                              u_url := EmptyString |}]) st) as [r ->].
      exists r. rewrite <- app_assoc. reflexivity.
Qed.

(** X12. When Apple's page is fetched, the adapter returns one record for
    each of its first ten items that has both a title and a date, in order,
    and skips the others without a fault.  At the first such item whose link
    has no [href] the loop ends with a [KeyError] that is caught: the
    records of the items before it are returned, not the empty list, and
    the items after it are not looked at. *)
Theorem apple_docs_keeps_items_before_a_broken_link
    (self : ContentAgent) (E : Env) (html : string) (st : St) :
  http_get E (src_apple_docs (self_sources self)) = Ok html ->
  fst (scrape_apple_docs self E st) =
    Ok (map update_of
          (List.filter listed
             (until broken_link (slice_to 10 (soup_update_items E html))))).
Proof.
  intros Hget. unfold scrape_apple_docs, returning, session_get, print.
  unfold try_except, lift, bind, emit, of_result. cbn [fst snd]. rewrite Hget.
  destruct (apple_items_run (slice_to 10 (soup_update_items E html)) []
              (set_trace (trace st ++
                 [Called (SessionGet (src_apple_docs (self_sources self)))]) st))
    as [r Hrun].
  rewrite Hrun. destruct r as [[]|e]; reflexivity.
Qed.

(** The sample page: the record before the broken link is kept. *)
Lemma apple_docs_keeps_items_before_a_broken_link_witness :
  fst (scrape_apple_docs init pages_up book) =
    Ok [{| u_title := "SwiftData"; u_date := Some "2026-01-04";
           u_description := EmptyString; u_url := "/documentation/swiftdata" |}].
Proof.
  rewrite (apple_docs_keeps_items_before_a_broken_link init pages_up "PAGE" book)
    by reflexivity.
  vm_compute. reflexivity.
Defined.

Lemma github_items_run items : forall acc st,
  for_in items github_item (acc, st) =
  (Ok tt, (acc ++ map repo_of (List.filter titled items), st)).
Proof.
  induction items as [|item items IH]; intros acc st.
  - cbn. rewrite app_nil_r. reflexivity.
  - cbn [for_in List.filter]. unfold bind. unfold github_item at 1, titled at 1.
    destruct item as [[title|] d s]; cbn [i_h2 has].
    + unfold append. cbn [fst snd]. rewrite IH, <- app_assoc. reflexivity.
    + unfold ret. apply IH.
Qed.

Lemma remove_char_gone c s : has_char c (remove_char c s) = false.
Proof.
  induction s as [|a s IH]; [reflexivity|]. cbn [remove_char].
  destruct (Ascii.eqb a c) eqn:Hac; [exact IH|].
  cbn [has_char]. rewrite Hac, IH. reflexivity.
Qed.

Lemma remove_char_keeps_absent c d s :
  has_char c s = false -> has_char c (remove_char d s) = false.
Proof.
  induction s as [|a s IH]; [reflexivity|]. cbn [remove_char has_char].
  intros Hs. apply orb_false_elim in Hs as [Ha Hs].
  destruct (Ascii.eqb a d); [auto|]. cbn [has_char]. rewrite Ha. auto.
Qed.

(** X13. The GitHub adapter returns one record for each of the first ten rows
    of a fetched page that has a title, in order (a row without a title is
    skipped, a row without stars gets "0"), so never more than ten; the name
    of every record is free of spaces and newlines, and its address is
    [https://github.com/] followed by that name. *)
Theorem github_trending_lists_titled_rows
    (self : ContentAgent) (E : Env) (html : string) (st : St) :
  http_get E (src_github_trending (self_sources self)) = Ok html ->
  let repos := map repo_of
                 (List.filter titled (slice_to 10 (soup_repo_items E html))) in
  fst (scrape_github_trending self E st) = Ok repos /\
  (length repos <= 10)%nat /\
  Forall (fun r => has_char " " (r_name r) = false /\
                   has_char "010" (r_name r) = false /\
                   r_url r = "https://github.com/" +:+ r_name r) repos.
Proof.
  intros Hget repos. split; [|split].
  - unfold scrape_github_trending, returning, session_get, print.
    unfold try_except, lift, bind, emit, of_result. cbn [fst snd]. rewrite Hget.
    rewrite github_items_run. reflexivity.
  - unfold repos, slice_to. rewrite length_map.
    etransitivity; [apply List.filter_length_le|]. rewrite length_firstn. lia.
  - unfold repos. apply List.Forall_forall. intros r Hr.
    apply in_map_iff in Hr as (item & <- & _). cbn [repo_of r_name r_url].
    unfold repo_name_of. split; [|split].
    + apply remove_char_gone.
    + apply remove_char_keeps_absent, remove_char_gone.
    + reflexivity.
Qed.

(** The sample page: the title is compacted, the untitled row is skipped. *)
Lemma github_trending_lists_titled_rows_witness :
  fst (scrape_github_trending init pages_up book) =
    Ok [{| r_name := "apple/swift"; r_description := EmptyString;
           r_stars := "68,000"; r_url := "https://github.com/apple/swift" |}].
Proof.
  destruct (github_trending_lists_titled_rows init pages_up "PAGE" book)
    as (Hr & _); [reflexivity|].
  rewrite Hr. vm_compute. reflexivity.
Defined.

(** *** Caps *)

Lemma grows_by_weaken {R A} n n' (m : M (list R * St) A) :
  (n <= n')%nat -> grows_by n m -> grows_by n' m.
Proof. intros Hn Hm acc st. specialize (Hm acc st). lia. Qed.

Lemma grows_by_ret {R A} (a : A) : grows_by (R := R) 0 (ret a).
Proof. intros acc st. cbn. lia. Qed.

Lemma grows_by_of_result {R A} (r : result A) : grows_by (R := R) 0 (of_result r).
Proof. intros acc st. cbn. lia. Qed.

Lemma grows_by_lift {R A} (m : M St A) : grows_by (R := R) 0 (lift m).
Proof. intros acc st. unfold lift. cbn [fst snd]. destruct (m st). cbn. lia. Qed.

Lemma grows_by_append {R} (x : R) : grows_by 1 (append x).
Proof. intros acc st. cbn. rewrite length_app. cbn. lia. Qed.

Lemma grows_by_bind {R A B} n1 n2 (m : M (list R * St) A)
    (k : A -> M (list R * St) B) :
  grows_by n1 m -> (forall a, grows_by n2 (k a)) -> grows_by (n1 + n2) (bind m k).
Proof.
  intros Hm Hk acc st. unfold bind. specialize (Hm acc st).
  destruct (m (acc, st)) as [[a|e] [acc1 st1]]; cbn [fst snd] in *.
  - specialize (Hk a acc1 st1). lia.
  - lia.
Qed.

Lemma grows_by_try_except {R A} n1 n2 (m : M (list R * St) A)
    (h : exn -> M (list R * St) A) :
  grows_by n1 m -> (forall e, grows_by n2 (h e)) ->
  grows_by (n1 + n2) (try_except m h).
Proof.
  intros Hm Hh acc st. unfold try_except. specialize (Hm acc st).
  destruct (m (acc, st)) as [[a|e] [acc1 st1]]; cbn [fst snd] in *.
  - lia.
  - specialize (Hh e acc1 st1). lia.
Qed.

Lemma grows_by_when {R} n (c : bool) (m : M (list R * St) unit) :
  grows_by n m -> grows_by n (when c m).
Proof.
  destruct c; cbn [when]; [auto|]. intros _.
  apply (grows_by_weaken 0); [lia | apply grows_by_ret].
Qed.

Lemma grows_by_for_in {R A} n (xs : list A) (body : A -> M (list R * St) unit) :
  (forall x, grows_by n (body x)) -> grows_by (n * length xs) (for_in xs body).
Proof.
  intros Hb. induction xs as [|x xs IH]; cbn [for_in length].
  - apply (grows_by_weaken 0); [lia | apply grows_by_ret].
  - apply (grows_by_weaken (n + n * length xs)); [lia|].
    apply grows_by_bind; auto.
Qed.

Lemma grows_by_returning {R} n (body : M (list R * St) unit) st :
  grows_by n body -> (returned (returning body st) <= n)%nat.
Proof.
  intros Hb. unfold returned, returning. specialize (Hb [] st).
  destruct (body ([], st)) as [[[]|e] [xs st']]; cbn [fst snd length] in *; lia.
Qed.

(** A chain of reads that add nothing, then a step that adds at most [n]. *)
Ltac grows_reads :=
  repeat (apply (grows_by_bind 0);
          [first [apply grows_by_of_result | apply grows_by_lift] | intro]).

Lemma grows_youtube_entry E e : grows_by 1 (youtube_entry E e).
Proof.
  unfold youtube_entry. grows_reads. apply grows_by_when. grows_reads.
  apply grows_by_append.
Qed.

Lemma grows_blog_entry E e : grows_by 1 (blog_entry E e).
Proof.
  unfold blog_entry. grows_reads. apply grows_by_when. grows_reads.
  apply grows_by_append.
Qed.

Lemma grows_apple_item item : grows_by 1 (apple_item item).
Proof.
  unfold apple_item. destruct (i_h3 item), (i_time item);
    try (apply (grows_by_weaken 0); [lia | apply grows_by_ret]).
  grows_reads. apply grows_by_append.
Qed.

Lemma grows_github_item item : grows_by 1 (github_item item).
Proof.
  unfold github_item. destruct (i_h2 item);
    [apply grows_by_append | apply (grows_by_weaken 0); [lia | apply grows_by_ret]].
Qed.

(** A guarded request followed by a loop over at most [cap] items, each
    adding at most one record. *)
Lemma grows_block {R A} E url cap (items : string -> list A)
    (step : A -> M (list R * St) unit) text :
  (forall x, grows_by 1 (step x)) ->
  (forall body, (length (items body) <= cap)%nat) ->
  grows_by cap
    (try_except
       (let* body := lift (session_get E url) in for_in (items body) step)
       (fun e => lift (print (LineErr text e)))).
Proof.
  intros Hstep Hcap.
  apply (grows_by_weaken (0 + cap + 0)); [lia|].
  apply grows_by_try_except; [|intro; apply grows_by_lift].
  apply grows_by_bind; [apply grows_by_lift | intro body].
  apply (grows_by_weaken (1 * length (items body))); [specialize (Hcap body); lia|].
  apply grows_by_for_in. exact Hstep.
Qed.

(** X14. In every world the adapters respect their caps: the Apple adapter
    and the GitHub adapter return at most 10 records each, the blog adapter
    at most 5, and the YouTube adapter at most 5 for each configured
    channel. *)
Theorem adapters_are_capped (self : ContentAgent) (E : Env) (st : St) :
  (returned (scrape_apple_docs self E st) <= 10)%nat /\
  (returned (scrape_github_trending self E st) <= 10)%nat /\
  (returned (scrape_swift_blog self E st) <= 5)%nat /\
  (returned (scrape_youtube_content self E st) <=
   5 * length (src_youtube_channels (self_sources self)))%nat.
Proof.
  repeat split.
  - unfold scrape_apple_docs. apply grows_by_returning.
    apply (grows_block E _ 10 (fun html => slice_to 10 (soup_update_items E html))).
    + apply grows_apple_item.
    + intros. apply firstn_length_le.
  - unfold scrape_github_trending. apply grows_by_returning.
    apply (grows_block E _ 10 (fun html => slice_to 10 (soup_repo_items E html))).
    + apply grows_github_item.
    + intros. apply firstn_length_le.
  - unfold scrape_swift_blog. apply grows_by_returning.
    apply (grows_block E _ 5 (fun data => slice_to 5 (feedparser_parse E data))).
    + apply grows_blog_entry.
    + intros. apply firstn_length_le.
  - unfold scrape_youtube_content. apply grows_by_returning.
    apply grows_by_for_in. intros channel_id. unfold youtube_channel.
    apply (grows_block E _ 5 (fun data => slice_to 5 (feedparser_parse E data))).
    + apply grows_youtube_entry.
    + intros. apply firstn_length_le.
Qed.

(** *** No stale record *)

Lemma fresh_at_later E days lo hi hi' published :
  (hi <= hi')%nat -> fresh_at E days lo hi published ->
  fresh_at E days lo hi' published.
Proof. intros Hle (k & Hk & Hfresh). exists k. split; [lia | exact Hfresh]. Qed.

Lemma all_fresh_lift {R A} E days (published : R -> datetime) lo (m : M St A) :
  (forall w, ticks (snd (m w)) = ticks w) ->
  stable (all_fresh E days published lo) (lift m).
Proof.
  intros Hm. apply stable_lift. intros l w [Hlo Hall]. unfold all_fresh in *.
  cbn [fst snd] in *. rewrite Hm. auto.
Qed.

Lemma all_fresh_tick {R} E days (published : R -> datetime) lo l w :
  all_fresh E days published lo (l, w) ->
  all_fresh E days published lo (l, set_ticks (S (ticks w)) w).
Proof.
  intros [Hlo Hall]. split; cbn [fst snd ticks set_ticks] in *; [lia|].
  eapply List.Forall_impl; [|exact Hall].
  intros x. apply fresh_at_later. lia.
Qed.

Lemma all_fresh_add {R} E days (published : R -> datetime) lo l w x :
  all_fresh E days published lo (l, w) ->
  clock E (ticks w) - published x <= timedelta_days days ->
  all_fresh E days published lo (l ++ [x], set_ticks (S (ticks w)) w).
Proof.
  intros Hinv Hx. destruct (all_fresh_tick _ _ _ _ _ _ Hinv) as [Hlo Hall].
  split; [exact Hlo|]. cbn [fst snd] in *.
  apply List.Forall_app. split; [exact Hall|].
  constructor; [|constructor].
  exists (ticks w). destruct Hinv as [Hlo' _]. cbn [fst snd ticks set_ticks] in *.
  split; [lia | exact Hx].
Qed.

Lemma all_fresh_youtube_entry E lo e :
  stable (all_fresh E 7 v_published lo) (youtube_entry E e).
Proof.
  intros [l w] Hinv. unfold youtube_entry, bind, of_result, lift, now, attr.
  destruct (e_published_parsed e) as [pub|]; cbn [fst snd]; [|exact Hinv].
  destruct (clock E (ticks w) - pub <=? timedelta_days 7) eqn:Hfresh; cbn [when].
  - apply Z.leb_le in Hfresh.
    destruct (e_title e), (e_link e), (e_summary e), (e_author e); cbn [fst snd];
      try (apply all_fresh_tick; exact Hinv).
    unfold append. cbn [fst snd]. apply all_fresh_add; assumption.
  - apply all_fresh_tick. exact Hinv.
Qed.

Lemma all_fresh_blog_entry E lo e :
  stable (all_fresh E 30 p_published lo) (blog_entry E e).
Proof.
  intros [l w] Hinv. unfold blog_entry, bind, of_result, lift, now, attr.
  destruct (e_published_parsed e) as [pub|]; cbn [fst snd]; [|exact Hinv].
  destruct (clock E (ticks w) - pub <=? timedelta_days 30) eqn:Hfresh; cbn [when].
  - apply Z.leb_le in Hfresh.
    destruct (e_title e), (e_link e), (e_summary e); cbn [fst snd];
      try (apply all_fresh_tick; exact Hinv).
    unfold append. cbn [fst snd]. apply all_fresh_add; assumption.
  - apply all_fresh_tick. exact Hinv.
Qed.

Lemma all_fresh_block {R A} E days (published : R -> datetime) lo url
    (items : string -> list A) (step : A -> M (list R * St) unit) text :
  (forall x, stable (all_fresh E days published lo) (step x)) ->
  stable (all_fresh E days published lo)
    (try_except
       (let* body := lift (session_get E url) in for_in (items body) step)
       (fun e => lift (print (LineErr text e)))).
Proof.
  intros Hstep. apply stable_try_except.
  - apply stable_bind.
    + apply all_fresh_lift. intros w. unfold session_get, bind, emit, of_result.
      reflexivity.
    + intros body. apply stable_for_in. exact Hstep.
  - intros e. apply all_fresh_lift. intros w. reflexivity.
Qed.

(** X15. Nothing stale is ever returned.  In every world, also on feeds with
    malformed entries, each video the YouTube adapter returns was published
    at most 7 days before one of the clock readings taken during that run of
    the adapter, and each post the blog adapter returns at most 30 days
    before one; neither adapter raises. *)
Theorem no_stale_record_is_returned (self : ContentAgent) (E : Env) (st : St) :
  match scrape_youtube_content self E st with
  | (Ok videos, st') =>
      Forall (fun v => fresh_at E 7 (ticks st) (ticks st') (v_published v)) videos
  | (Raise _, _) => False
  end /\
  match scrape_swift_blog self E st with
  | (Ok posts, st') =>
      Forall (fun p => fresh_at E 30 (ticks st) (ticks st') (p_published p)) posts
  | (Raise _, _) => False
  end.
Proof.
  split.
  - destruct (total_run _ st (total_scrape_youtube_content self E)) as (vs & st' & Hrun).
    pose proof (stable_returning (all_fresh E 7 v_published (ticks st))
                  (for_in (src_youtube_channels (self_sources self))
                          (youtube_channel E)) st) as Hst.
    fold (scrape_youtube_content self E) in Hst. rewrite Hrun in *.
    apply Hst.
    + apply stable_for_in. intros channel_id. unfold youtube_channel.
      apply (all_fresh_block E 7 v_published (ticks st) _
               (fun data => slice_to 5 (feedparser_parse E data))).
      apply all_fresh_youtube_entry.
    + split; [cbn; lia | constructor].
  - destruct (total_run _ st (total_scrape_swift_blog self E)) as (ps & st' & Hrun).
    pose proof (stable_returning (all_fresh E 30 p_published (ticks st))
                  (try_except
                     (let* feed_data := lift (session_get E "https://swift.org/blog/feed.xml") in
                      for_in (slice_to 5 (feedparser_parse E feed_data)) (blog_entry E))
                     (fun e => lift (print (LineErr "Error scraping Swift blog: " e))))
                  st) as Hst.
    fold (scrape_swift_blog self E) in Hst. rewrite Hrun in *.
    apply Hst.
    + apply (all_fresh_block E 30 p_published (ticks st) _
               (fun data => slice_to 5 (feedparser_parse E data))).
      apply all_fresh_blog_entry.
    + split; [cbn; lia | constructor].
Qed.

(** *** Faults in the middle of a payload *)

(** X16. An entry without a date ends the blog feed: the adapter returns the
    fresh posts among the entries before it, prints the [AttributeError],
    and neither looks at the entries after it nor reads the clock for
    them. *)
Theorem undated_entry_ends_the_feed
    (self : ContentAgent) (E : Env) (feed_data : string)
    (good rest : list entry) (bad : entry) (st : St) :
  http_get E "https://swift.org/blog/feed.xml" = Ok feed_data ->
  slice_to 5 (feedparser_parse E feed_data) = good ++ bad :: rest ->
  forallb complete_post good = true ->
  e_published_parsed bad = None ->
  scrape_swift_blog self E st =
  (Ok (map post_of (fresh_entries 30 (clock E) (ticks st) good)),
   set_trace
     (trace st ++
        [Called (SessionGet "https://swift.org/blog/feed.xml");
         Printed (LineErr "Error scraping Swift blog: "
                    (Exception "AttributeError" "published_parsed"))])
     (set_ticks (ticks st + length good) st)).
Proof.
  intros Hget Hsplit Hgood Hbad.
  unfold scrape_swift_blog, returning, session_get, print.
  unfold try_except, lift, bind, emit, of_result. cbn [fst snd].
  rewrite Hget, Hsplit, for_in_app. unfold bind.
  rewrite blog_entries_run by exact Hgood.
  cbn [for_in]. unfold bind. unfold blog_entry at 1. unfold bind, of_result, attr.
  rewrite Hbad. cbn [fst snd app].
  unfold set_trace, set_ticks. cbn [tree next_sha ticks trace].
  rewrite <- app_assoc. reflexivity.
Qed.

(** The sample feed: the post after the undated entry is lost. *)
Lemma undated_entry_ends_the_feed_witness :
  fst (scrape_swift_blog init blog_with_undated_entry book) =
    Ok [post_of (entry_at "first" (99 * day))].
Proof.
  rewrite (undated_entry_ends_the_feed init blog_with_undated_entry "POSTS"
             [entry_at "first" (99 * day)] [entry_at "third" (99 * day)]
             undated_entry book); reflexivity.
Defined.

(** X17. A child of a Reddit listing that has no ['data'] ends that
    subreddit: the relevant posts before it are kept, the exception is
    printed, and the posts after it are lost. *)
Theorem stray_child_ends_the_listing
    (E : Env) (subreddit body : string) (good : list listed_post)
    (bad : json) (rest : list json) (e : exn)
    (discussions : list discussion) (st : St) :
  http_get E (reddit_url subreddit) = Ok body ->
  listing_children E body = Ok (map post_json good ++ bad :: rest) ->
  py_getitem bad "data" = Raise e ->
  reddit_feed E subreddit (discussions, st) =
  (Ok tt,
   (discussions ++ map (discussion_of subreddit) (List.filter relevant good),
    set_trace
      (trace st ++
         [Called (SessionGet (reddit_url subreddit));
          Printed (LineErr ("Error scraping Reddit " +:+ subreddit +:+ ": ") e)])
      st)).
Proof.
  intros Hget Hlist Hbad. unfold listing_children in Hlist.
  unfold reddit_feed, session_get, print.
  unfold try_except, lift, bind, emit, of_result.
  fold (reddit_url subreddit). cbn [fst snd]. rewrite Hget.
  destruct (json_loads E body) as [data|]; [|discriminate].
  destruct (py_getitem data "data") as [inner|]; [|discriminate].
  destruct (py_getitem inner "children") as [children|]; [|discriminate].
  rewrite Hlist, for_in_app. unfold bind. rewrite reddit_posts_run.
  cbn [for_in]. unfold bind. unfold reddit_post at 1. unfold bind, of_result.
  rewrite Hbad. cbn [fst snd].
  unfold set_trace. cbn [tree next_sha ticks trace].
  rewrite <- app_assoc. reflexivity.
Qed.

(** The sample listing: the post after the stray child is lost. *)
Lemma stray_child_ends_the_listing_witness :
  fst (snd (reddit_feed reddit_with_stray_child "r/swift" ([], book))) =
    [discussion_of "r/swift" popular].
Proof.
  rewrite (stray_child_ends_the_listing reddit_with_stray_child "r/swift"
             "LISTING" [popular] (JStr "more") [post_json unpopular]
             (Exception "TypeError" "string indices must be integers") [] book);
    reflexivity.
Defined.

(** X18. A response that is not a listing (a body that does not parse, an
    answer without ['data'] or without ['children'], children that cannot be
    iterated) adds nothing for that subreddit: the exception is printed and
    the records collected so far are kept as they are. *)
Theorem unreadable_listing_adds_nothing
    (E : Env) (subreddit body : string) (e : exn)
    (discussions : list discussion) (st : St) :
  http_get E (reddit_url subreddit) = Ok body ->
  listing_children E body = Raise e ->
  reddit_feed E subreddit (discussions, st) =
  (Ok tt,
   (discussions,
    set_trace
      (trace st ++
         [Called (SessionGet (reddit_url subreddit));
          Printed (LineErr ("Error scraping Reddit " +:+ subreddit +:+ ": ") e)])
      st)).
Proof.
  intros Hget Hlist. unfold listing_children in Hlist.
  unfold reddit_feed, session_get, print.
  unfold try_except, lift, bind, emit, of_result.
  fold (reddit_url subreddit). cbn [fst snd]. rewrite Hget.
  destruct (json_loads E body) as [data|e1];
    [destruct (py_getitem data "data") as [inner|e2];
     [destruct (py_getitem inner "children") as [children|e3]|]|];
    [rewrite Hlist | injection Hlist as -> | injection Hlist as ->
    | injection Hlist as ->];
    cbn [fst snd]; unfold set_trace; cbn [tree next_sha ticks trace];
    rewrite <- app_assoc; reflexivity.
Qed.

(** Reddit answers with its rate-limit message. *)
Lemma unreadable_listing_adds_nothing_witness :
  fst (scrape_reddit_content init reddit_rate_limited book) = Ok [].
Proof.
  unfold scrape_reddit_content, returning. cbn [init self_sources src_reddit_feeds for_in].
  unfold bind.
  rewrite (unreadable_listing_adds_nothing reddit_rate_limited "r/iOSProgramming"
             "LISTING" (Exception "KeyError" "data")) by reflexivity.
  rewrite (unreadable_listing_adds_nothing reddit_rate_limited "r/swift"
             "LISTING" (Exception "KeyError" "data")) by reflexivity.
  reflexivity.
Defined.


(* ===================================================================== *)
(** * From the model to the repository *)

Lemma deploy_updates_keeps_store E st :
  tree (snd (deploy_updates E st)) = tree st.
Proof.
  unfold deploy_updates, get_workflow, create_dispatch, fault, print.
  unfold try_except, bind, emit, raise, ret. cbn [fst snd].
  repeat (break_match; cbn [fst snd tree set_trace] in * ); reflexivity.
Qed.

(** X19. A whole cycle against a GitHub that answers without faults and a
    model whose answer to the generation request parses to a dict with a
    string under [new_chapter]: whatever the sources returned and whatever
    the analysis made of it, after the cycle the repository holds that
    string at the chapter path of the date read when the adapters were
    done. *)
Theorem generated_chapter_is_published
    (self : ContentAgent) (E : Env) (kv : list (string * json)) (body : string)
    (st : St) :
  (forall c, github_fault E c = None) ->
  (forall insights, parsed_or_empty E (generation_request insights) = JObj kv) ->
  assoc "new_chapter" kv = Some (JStr body) ->
  decoded_content <$>
    (tree (snd (pipeline self E st))
       !! chapter_path (today E (snd (scrape_all_sources self E st))))
  = Some body.
Proof.
  intros Hf Hgen Hkv.
  destruct (total_run _ st (total_scrape_all_sources self E)) as (c & s1 & Hs).
  unfold pipeline, bind. rewrite Hs. cbn [snd].
  destruct (analyze_content_run E c s1) as [l2 ->].
  destruct (generate_course_updates_run E
              (parsed_or_empty E (analysis_request c))
              (set_trace (trace s1 ++ Called (ChatCreate (analysis_request c))
                            :: map Printed l2) s1)) as [l3 ->].
  rewrite Hgen.
  match goal with
  | |- context [update_course_repo E (JObj kv) ?s3] =>
      pose proof (publish_then_read E kv body s3 Hf Hkv) as Hread;
      destruct (total_run _ s3 (total_update_course_repo E (JObj kv)))
        as ([] & s4 & Hu)
  end.
  rewrite Hu in *. cbn [snd] in Hread.
  rewrite deploy_updates_keeps_store. exact Hread.
Qed.

(** A cycle in the sample world in which the model answers. *)
Lemma generated_chapter_is_published_witness :
  decoded_content <$>
    (tree (snd (pipeline init model_up book)) !! chapter_path "20260105")
  = Some "# Lesson".
Proof.
  apply (generated_chapter_is_published init model_up
           [("new_chapter", JStr "# Lesson")] "# Lesson" book);
    intros; reflexivity.
Defined.
